(** * online-dretec: the timer / stopwatch state machine

    The repository carries two revisions of the [Timer] React component:

    - [src/components/timer.tsx], with the modes ['timer' | 'stopwatch'],
      a tick that counts in steps of one, and a local session list;
      it is embedded in module [Timer];
    - the component printed after the project description in
      [src/README.md], with the extra mode ['clock'], wall-clock based
      ticks and the shared session context; it is embedded in module
      [ClockTimer].

    A React state update [setState(prev => next)] is a function on the
    state record.  JavaScript numbers are modelled as [Z]: every number the
    component stores is an integer obtained from integers by [+], [-],
    [* 100] and [Math.floor(_ / k)], far below 2^53.  A [Date] is its
    millisecond time stamp, [Date | null] is [option Z]. *)

From Stdlib Require Import ZArith Bool List String Ascii Lia.
From Stdlib Require Import DecimalString.
Import ListNotations.

Open Scope Z_scope.

(** ** The JavaScript string helpers the formatters use *)

Module Js.

(** [n.toString()] for an integer [n]. *)
Definition toString (n : Z) : string :=
  NilZero.string_of_int (Z.to_int n).

Fixpoint repeat_char (c : ascii) (n : nat) : string :=
  match n with
  | O => EmptyString
  | S k => String c (repeat_char c k)
  end.

(** [s.padStart(targetLength, c)] for a one-character pad string. *)
Definition padStart (targetLength : nat) (c : ascii) (s : string) : string :=
  (repeat_char c (targetLength - String.length s) ++ s)%string.

(** [Math.floor(a / b)] on integers, for a positive [b]. *)
Definition floor_div (a b : Z) : Z := a / b.

End Js.

(** ** [TIMER_CONSTANTS], shared verbatim by both revisions *)

Module TIMER_CONSTANTS.

Definition TIMER_MAX : Z := 99 * 3600 + 59 * 60 + 59.
Definition STOPWATCH_HMS_MAX : Z := 99 * 3600 + 59 * 60 + 59.
Definition STOPWATCH_MS_MAX : Z := 59 * 60 * 100 + 99.

Definition INTERVAL_TIMER : Z := 1000.
Definition INTERVAL_STOPWATCH_HMS : Z := 1000.
Definition INTERVAL_STOPWATCH_MS : Z := 10.
Definition INTERVAL_LONG_PRESS : Z := 200.
Definition INTERVAL_FLASH : Z := 300.

End TIMER_CONSTANTS.

(** ** [src/components/timer.tsx]

    Line numbers below are those of that file. *)

Module Timer.

Import TIMER_CONSTANTS.

Inductive TimerMode : Type := timer | stopwatch.
Inductive DisplayFormat : Type := hms | ms.

Definition TimerMode_eqb (a b : TimerMode) : bool :=
  match a, b with
  | timer, timer | stopwatch, stopwatch => true
  | _, _ => false
  end.

Definition DisplayFormat_eqb (a b : DisplayFormat) : bool :=
  match a, b with
  | hms, hms | ms, ms => true
  | _, _ => false
  end.

(** [interface LogEntry], lines 52-57; the fields [id] and [startTime] carry the prefix
    [entry_] because the state record has a [startTime] of its own. *)
Record LogEntry : Type := mkLogEntry {
  entry_id : string;
  entry_startTime : Z;
  duration : Z;
  formattedDuration : string
}.

(** [interface TimerState], lines 59-68. *)
Record TimerState : Type := mkState {
  mode : TimerMode;
  displayFormat : DisplayFormat;
  running : bool;
  paused : bool;
  time : Z;
  timerSet : Z;
  flash : bool;
  startTime : option Z
}.

(** The argument of [useState], lines 120-129. *)
Definition initialState : TimerState :=
  {| mode := stopwatch; displayFormat := hms; running := false;
     paused := false; time := 0; timerSet := 0; flash := false;
     startTime := None |}.

(** [getMaxTime], lines 134-138. *)
Definition getMaxTime (state : TimerState) : Z :=
  match mode state with
  | timer => TIMER_MAX
  | stopwatch =>
      match displayFormat state with
      | hms => STOPWATCH_HMS_MAX
      | ms => STOPWATCH_MS_MAX
      end
  end.

Definition two_digits (n : Z) : string :=
  Js.padStart 2 "0"%char (Js.toString n).

(** [formatTime], lines 141-166.  [Math.floor] is the identity on the
    integers the component stores. *)
Definition formatTime (state : TimerState) (t : Z) : string :=
  let time := Z.max 0 t in
  match mode state with
  | timer =>
      let hours := two_digits (Js.floor_div time 3600) in
      let minutes := two_digits (Js.floor_div (time mod 3600) 60) in
      let secs := two_digits (time mod 60) in
      (hours ++ ":" ++ minutes ++ ":" ++ secs)%string
  | stopwatch =>
      match displayFormat state with
      | hms =>
          let hours := two_digits (Js.floor_div time 3600) in
          let minutes := two_digits (Js.floor_div (time mod 3600) 60) in
          let secs := two_digits (time mod 60) in
          (hours ++ ":" ++ minutes ++ ":" ++ secs)%string
      | ms =>
          let cs := time mod 100 in
          let totalSeconds := Js.floor_div time 100 in
          let minutes := two_digits (Js.floor_div totalSeconds 60) in
          let secs := two_digits (totalSeconds mod 60) in
          (minutes ++ ":" ++ secs ++ "." ++ two_digits cs)%string
      end
  end.

Definition swapFormat (f : DisplayFormat) : DisplayFormat :=
  match f with hms => ms | ms => hms end.

(** [handleFormatToggle], lines 193-221.  The callback is rebuilt whenever
    [state.mode] changes, so the mode it branches on is the mode of the
    state it updates. *)
Definition handleFormatToggle (prevState : TimerState) : TimerState :=
  match mode prevState with
  | stopwatch =>
      let newFormat := swapFormat (displayFormat prevState) in
      let newTime :=
        match displayFormat prevState, newFormat with
        | hms, ms => time prevState * 100
        | ms, hms => Js.floor_div (time prevState) 100
        | _, _ => time prevState
        end in
      {| mode := mode prevState; displayFormat := newFormat;
         running := running prevState; paused := paused prevState;
         time := newTime; timerSet := timerSet prevState;
         flash := flash prevState; startTime := startTime prevState |}
  | timer =>
      {| mode := mode prevState;
         displayFormat := swapFormat (displayFormat prevState);
         running := running prevState; paused := paused prevState;
         time := time prevState; timerSet := timerSet prevState;
         flash := flash prevState; startTime := startTime prevState |}
  end.

(** [handleStartStop], lines 224-243; [now] is [new Date()]. *)
Definition handleStartStop (now : Z) (prevState : TimerState) : TimerState :=
  if paused prevState then
    {| mode := mode prevState; displayFormat := displayFormat prevState;
       running := true; paused := false;
       time := time prevState; timerSet := timerSet prevState;
       flash := flash prevState; startTime := startTime prevState |}
  else if running prevState then
    {| mode := mode prevState; displayFormat := displayFormat prevState;
       running := false; paused := true;
       time := time prevState; timerSet := timerSet prevState;
       flash := flash prevState; startTime := startTime prevState |}
  else
    {| mode := mode prevState; displayFormat := displayFormat prevState;
       running := true; paused := false;
       time := time prevState; timerSet := timerSet prevState;
       flash := flash prevState;
       startTime := match mode prevState with
                    | stopwatch => Some now
                    | timer => startTime prevState
                    end |}.

(** [handleLog], lines 268-288: the guard reads the rendered state, the
    entry is put in front of [logEntries] and the run is cleared.  [now] is
    [Date.now()]. *)
Definition handleLog (now : Z) (state : TimerState)
    (logEntries : list LogEntry) : TimerState * list LogEntry :=
  match mode state, startTime state with
  | stopwatch, Some started =>
      if 0 <? time state then
        let logEntry :=
          {| entry_id := Js.toString now;
             entry_startTime := started;
             duration := time state;
             formattedDuration := formatTime state (time state) |} in
        ({| mode := mode state; displayFormat := displayFormat state;
            running := false; paused := false; time := 0;
            timerSet := timerSet state; flash := flash state;
            startTime := None |},
         logEntry :: logEntries)
      else (state, logEntries)
  | _, _ => (state, logEntries)
  end.

(** The mode button branch of [handleClick], lines 699-708. *)
Definition handleModeSwitch (prevState : TimerState) : TimerState :=
  {| mode := match mode prevState with timer => stopwatch | stopwatch => timer end;
     displayFormat := displayFormat prevState;
     running := false; paused := false; time := 0;
     timerSet := timerSet prevState; flash := flash prevState;
     startTime := None |}.

(** The reset button branch of [handleClick], lines 712-720. *)
Definition handleReset (prevState : TimerState) : TimerState :=
  {| mode := mode prevState; displayFormat := displayFormat prevState;
     running := false; paused := false;
     time := match mode prevState with
             | timer => timerSet prevState
             | stopwatch => 0
             end;
     timerSet := timerSet prevState; flash := flash prevState;
     startTime := None |}.

(** The H / M / S button branches of [handleClick], lines 721-754, and the
    long-press interval of [handleMouseDown], lines 769-786.  The guard
    [!state.running && state.mode === 'timer'] and [getMaxTime()] read
    [state], the state of the render in which the scene effect last ran;
    the updater reads [prevState]. *)
Definition incrementField (unit : Z) (state prevState : TimerState)
    : TimerState :=
  if negb (running state) && TimerMode_eqb (mode state) timer then
    let newVal := timerSet prevState + unit in
    {| mode := mode prevState; displayFormat := displayFormat prevState;
       running := running prevState; paused := paused prevState;
       time := time prevState;
       timerSet := if newVal <=? getMaxTime state then newVal
                   else timerSet prevState;
       flash := flash prevState; startTime := startTime prevState |}
  else prevState.

Definition HOURS : Z := 3600.
Definition MINUTES : Z := 60.
Definition SECONDS : Z := 1.

(** The updater of the timer interval, lines 892-908. *)
Definition timerTick (prevState : TimerState) : TimerState :=
  if time prevState <=? 1 then
    {| mode := mode prevState; displayFormat := displayFormat prevState;
       running := false; paused := false; time := 0;
       timerSet := timerSet prevState; flash := true;
       startTime := startTime prevState |}
  else
    {| mode := mode prevState; displayFormat := displayFormat prevState;
       running := running prevState; paused := paused prevState;
       time := time prevState - 1;
       timerSet := timerSet prevState; flash := flash prevState;
       startTime := startTime prevState |}.

(** The updater of the stopwatch interval, lines 915-924; [max] is
    [getMaxTime()] of the render that installed the interval. *)
Definition stopwatchTick (max : Z) (prevState : TimerState) : TimerState :=
  if max <=? time prevState then prevState
  else
    {| mode := mode prevState; displayFormat := displayFormat prevState;
       running := running prevState; paused := paused prevState;
       time := time prevState + 1;
       timerSet := timerSet prevState; flash := flash prevState;
       startTime := startTime prevState |}.

(** The tick effect, lines 887-931: an interval exists only while
    [state.running && !state.paused]; its dependencies cover every field it
    reads, so the interval always belongs to the current state. *)
Definition tick (state : TimerState) : TimerState :=
  if running state && negb (paused state) then
    match mode state with
    | timer => timerTick state
    | stopwatch => stopwatchTick (getMaxTime state) state
    end
  else state.

(** The period of that interval, in milliseconds. *)
Definition tickInterval (state : TimerState) : Z :=
  match mode state with
  | timer => INTERVAL_TIMER
  | stopwatch =>
      match displayFormat state with
      | hms => INTERVAL_STOPWATCH_HMS
      | ms => INTERVAL_STOPWATCH_MS
      end
  end.

(** The flash effect, lines 946-968: while [state.flash] an interval
    negates the flag every 300 ms, and a timeout installed together with it
    clears the flag. *)
Definition flashToggle (prevState : TimerState) : TimerState :=
  {| mode := mode prevState; displayFormat := displayFormat prevState;
     running := running prevState; paused := paused prevState;
     time := time prevState; timerSet := timerSet prevState;
     flash := negb (flash prevState); startTime := startTime prevState |}.

Definition flashTimeout (prevState : TimerState) : TimerState :=
  {| mode := mode prevState; displayFormat := displayFormat prevState;
     running := running prevState; paused := paused prevState;
     time := time prevState; timerSet := timerSet prevState;
     flash := false; startTime := startTime prevState |}.

(** The delay of that timeout, in milliseconds. *)
Definition FLASH_TIMEOUT : Z := 2000.

(** The effect of lines 970-978: a timer that is neither running nor paused
    shows, and stores, [timerSet]. *)
Definition restoreTimerSet (state : TimerState) : TimerState :=
  if negb (running state) && negb (paused state)
     && TimerMode_eqb (mode state) timer then
    {| mode := mode state; displayFormat := displayFormat state;
       running := running state; paused := paused state;
       time := timerSet state; timerSet := timerSet state;
       flash := flash state; startTime := startTime state |}
  else state.


(** *** The component: state, captured render and session list

    The handlers [handleClick] and [handleMouseDown] are created inside the
    scene effect, whose dependency list is
    [[state.mode, state.displayFormat, handleStartStop, handleFormatToggle,
    getMaxTime]] (line 884).  The [state] they read is therefore the state
    of the last render in which the mode or the display format changed;
    [scene] records it. *)
Record Component : Type := mkComponent {
  st : TimerState;
  scene : TimerState;
  logEntries : list LogEntry
}.

Definition initialComponent : Component :=
  {| st := initialState; scene := initialState; logEntries := [] |}.

(** Did a dependency of the scene effect change between two renders? *)
Definition sceneDepsChanged (before after : TimerState) : bool :=
  negb (TimerMode_eqb (mode before) (mode after)
        && DisplayFormat_eqb (displayFormat before) (displayFormat after)).

(** Did a dependency of the effect of lines 970-978 change?  Its list is
    [[state.timerSet, state.running, state.paused, state.mode]]. *)
Definition restoreDepsChanged (before after : TimerState) : bool :=
  negb ((timerSet before =? timerSet after)
        && Bool.eqb (running before) (running after)
        && Bool.eqb (paused before) (paused after)
        && TimerMode_eqb (mode before) (mode after)).

(** One state update followed by the render it causes and the effects
    that render runs. *)
Definition commit (c : Component) (next : TimerState)
    (entries : list LogEntry) : Component :=
  {| st := if restoreDepsChanged (st c) next then restoreTimerSet next
           else next;
     scene := if sceneDepsChanged (st c) next then next else scene c;
     logEntries := entries |}.

(** One firing of the tick interval as the component goes through it: the
    updater of the interval, then the render it causes, in which the
    effect of lines 970-978 runs when one of its dependencies changed.
    This is the state [commit] stores for the tick. *)
Definition tickRender (state : TimerState) : TimerState :=
  let next := tick state in
  if restoreDepsChanged state next then restoreTimerSet next else next.

(** [n] firings of the tick interval in a row. *)
Fixpoint ticks (n : nat) (state : TimerState) : TimerState :=
  match n with
  | O => state
  | S k => ticks k (tickRender state)
  end.

(** What can happen to the component: a click on one of the buttons
    (the hour, minute and second buttons carry their increment), a firing
    of the tick interval, of the 300 ms flash interval, or of a pending
    flash timeout. *)
Inductive Event : Type :=
  | StartStopButton (now : Z)
  | ModeButton
  | FormatButton
  | ResetButton
  | FieldButton (unit : Z)
  | LogButton (now : Z)
  | IntervalTick
  | FlashInterval
  | FlashTimer.

Definition step (c : Component) (e : Event) : Component :=
  match e with
  | StartStopButton now =>
      commit c (handleStartStop now (st c)) (logEntries c)
  | ModeButton => commit c (handleModeSwitch (st c)) (logEntries c)
  | FormatButton => commit c (handleFormatToggle (st c)) (logEntries c)
  | ResetButton => commit c (handleReset (st c)) (logEntries c)
  | FieldButton unit =>
      commit c (incrementField unit (scene c) (st c)) (logEntries c)
  | LogButton now =>
      let '(next, entries) := handleLog now (st c) (logEntries c) in
      commit c next entries
  | IntervalTick => commit c (tick (st c)) (logEntries c)
  | FlashInterval =>
      if flash (st c) then commit c (flashToggle (st c)) (logEntries c)
      else c
  | FlashTimer => commit c (flashTimeout (st c)) (logEntries c)
  end.

Definition run (c : Component) (events : list Event) : Component :=
  fold_left step events c.

Inductive reachable : Component -> Prop :=
  | reachable_init : reachable initialComponent
  | reachable_step c e : reachable c -> reachable (step c e).

End Timer.

(** ** The revision with a clock mode

    [src/README.md], lines 29-1234: the component that follows the project
    description.  Line numbers below are those of that file. *)

Module ClockTimer.

Import TIMER_CONSTANTS.

(** [type TimerMode], [type DisplayFormat], lines 66-67. *)
Inductive TimerMode : Type := clock | timer | stopwatch.
Inductive DisplayFormat : Type := hms | ms.

(** [interface LogEntry], lines 68-73. *)
Record LogEntry : Type := mkLogEntry {
  entry_id : string;
  entry_startTime : Z;
  duration : Z;
  formattedDuration : string
}.

(** [interface TimerState], lines 74-84. *)
Record TimerState : Type := mkState {
  mode : TimerMode;
  displayFormat : DisplayFormat;
  running : bool;
  paused : bool;
  time : Z;
  timerSet : Z;
  flash : bool;
  startTime : option Z;
  pausedAccum : Z
}.

(** The argument of [useState], lines 156-166. *)
Definition initialState : TimerState :=
  {| mode := clock; displayFormat := hms; running := false;
     paused := false; time := 0; timerSet := 0; flash := false;
     startTime := None; pausedAccum := 0 |}.

Definition two_digits (n : Z) : string :=
  Js.padStart 2 "0"%char (Js.toString n).

(** [formatTimeForLog], lines 87-108; the [ms] branch computes [cs] and
    drops it.  It is called with a positive integer [time]. *)
Definition formatTimeForLog (time : Z) (format : DisplayFormat) : string :=
  match format with
  | hms =>
      let h := two_digits (Js.floor_div time 3600) in
      let m := two_digits (Js.floor_div (time mod 3600) 60) in
      let s := two_digits (time mod 60) in
      (h ++ ":" ++ m ++ ":" ++ s)%string
  | ms =>
      let s := two_digits time in
      let m := two_digits (Js.floor_div time 60) in
      (m ++ ":" ++ s)%string
  end.

(** [getMaxTime], lines 172-177. *)
Definition getMaxTime (state : TimerState) : Z :=
  match mode state with
  | timer => TIMER_MAX
  | _ =>
      match displayFormat state with
      | hms => STOPWATCH_HMS_MAX
      | ms => STOPWATCH_MS_MAX
      end
  end.

Definition swapFormat (f : DisplayFormat) : DisplayFormat :=
  match f with hms => ms | ms => hms end.

(** [handleFormatToggle], lines 259-265. *)
Definition handleFormatToggle (prev : TimerState) : TimerState :=
  if negb (running prev) && negb (paused prev) then
    {| mode := mode prev; displayFormat := swapFormat (displayFormat prev);
       running := running prev; paused := paused prev; time := time prev;
       timerSet := timerSet prev; flash := flash prev;
       startTime := startTime prev; pausedAccum := pausedAccum prev |}
  else prev.

(** Whole units of [unit] milliseconds between [startTime] and [now]. *)
Definition elapsedSince (now : Z) (started : option Z) (unit : Z) : Z :=
  match started with
  | Some t => Js.floor_div (now - t) unit
  | None => 0
  end.

(** [handleStartStop], lines 267-326; [now] is [new Date()]. *)
Definition handleStartStop (now : Z) (prev : TimerState) : TimerState :=
  match mode prev with
  | clock =>
      {| mode := stopwatch; displayFormat := displayFormat prev;
         running := true; paused := false; time := 0;
         timerSet := timerSet prev; flash := flash prev;
         startTime := Some now; pausedAccum := 0 |}
  | timer =>
      if timerSet prev =? 0 then prev
      else if paused prev then
        {| mode := mode prev; displayFormat := displayFormat prev;
           running := true; paused := false; time := time prev;
           timerSet := timerSet prev; flash := flash prev;
           startTime := Some now; pausedAccum := pausedAccum prev |}
      else if running prev then
        let elapsed := elapsedSince now (startTime prev) 1000 in
        {| mode := mode prev; displayFormat := displayFormat prev;
           running := false; paused := true;
           time := Z.max 0 (timerSet prev - (pausedAccum prev + elapsed));
           timerSet := timerSet prev; flash := flash prev;
           startTime := None; pausedAccum := pausedAccum prev + elapsed |}
      else
        {| mode := mode prev; displayFormat := displayFormat prev;
           running := true; paused := false; time := timerSet prev;
           timerSet := timerSet prev; flash := flash prev;
           startTime := Some now; pausedAccum := 0 |}
  | stopwatch =>
      if paused prev then
        {| mode := mode prev; displayFormat := displayFormat prev;
           running := true; paused := false; time := time prev;
           timerSet := timerSet prev; flash := flash prev;
           startTime := Some now; pausedAccum := pausedAccum prev |}
      else if running prev then
        let elapsed :=
          elapsedSince now (startTime prev)
            (match displayFormat prev with hms => 1000 | ms => 10 end) in
        {| mode := mode prev; displayFormat := displayFormat prev;
           running := false; paused := true; time := time prev;
           timerSet := timerSet prev; flash := flash prev;
           startTime := None; pausedAccum := pausedAccum prev + elapsed |}
      else
        {| mode := mode prev; displayFormat := displayFormat prev;
           running := true; paused := false; time := time prev;
           timerSet := timerSet prev; flash := flash prev;
           startTime := Some now; pausedAccum := pausedAccum prev |}
  end.

(** [handleReset], lines 328-339. *)
Definition handleReset (prev : TimerState) : TimerState :=
  {| mode := clock; displayFormat := displayFormat prev;
     running := false; paused := false; time := 0; timerSet := 0;
     flash := flash prev; startTime := None; pausedAccum := 0 |}.

(** The mode button branch of [handleClick], lines 846-855. *)
Definition handleModeSwitch (prevState : TimerState) : TimerState :=
  {| mode := match mode prevState with
             | timer => stopwatch
             | _ => timer
             end;
     displayFormat := displayFormat prevState;
     running := false; paused := false; time := 0;
     timerSet := timerSet prevState; flash := flash prevState;
     startTime := None; pausedAccum := pausedAccum prevState |}.

(** [addSession] of [src/contexts/SessionContext.tsx]. *)
Definition addSession (session : LogEntry) (sessions : list LogEntry)
    : list LogEntry :=
  session :: sessions.

(** The updater of [handleLog], lines 361-376: the session list after [addSession] and the
    state the updater returns.  The updater also calls [handleReset()],
    which enqueues the update [handleReset] above; that second update is
    not part of this function. *)
Definition handleLog (now : Z) (prev : TimerState)
    (sessions : list LogEntry) : TimerState * list LogEntry :=
  match mode prev with
  | stopwatch =>
      let sessions' :=
        match startTime prev with
        | Some started =>
            if 0 <? time prev then
              addSession
                {| entry_id := Js.toString now;
                   entry_startTime := started;
                   duration := time prev;
                   formattedDuration :=
                     formatTimeForLog (time prev) (displayFormat prev) |}
                sessions
            else sessions
        | None => sessions
        end in
      ({| mode := mode prev; displayFormat := displayFormat prev;
          running := false; paused := false; time := 0;
          timerSet := timerSet prev; flash := flash prev;
          startTime := None; pausedAccum := pausedAccum prev |},
       sessions')
  | _ => (prev, sessions)
  end.

(** The H / M / S updaters of [handleClick], lines 862-915, and of the
    long-press interval, lines 943-959: guard and bound both read
    [prevState]; under the guard the bound is [TIMER_MAX]. *)
Definition incrementField (unit : Z) (prevState : TimerState) : TimerState :=
  match running prevState, mode prevState with
  | false, timer =>
      let maxTime := TIMER_MAX in
      let newVal := timerSet prevState + unit in
      {| mode := mode prevState; displayFormat := displayFormat prevState;
         running := running prevState; paused := paused prevState;
         time := time prevState;
         timerSet := if newVal <=? maxTime then newVal
                     else timerSet prevState;
         flash := flash prevState; startTime := startTime prevState;
         pausedAccum := pausedAccum prevState |}
  | _, _ => prevState
  end.

(** The state installed when the countdown has run out, lines 1123-1131. *)
Definition expire (prev : TimerState) : TimerState :=
  {| mode := mode prev; displayFormat := displayFormat prev;
     running := false; paused := false; time := 0;
     timerSet := timerSet prev; flash := true;
     startTime := None; pausedAccum := 0 |}.

Definition remaining (now : Z) (state : TimerState) : Z :=
  Z.max 0 (timerSet state
           - (pausedAccum state + elapsedSince now (startTime state) 1000)).

(** One frame of the timer countdown effect, lines 1113-1141: nothing unless the mode is
    [timer], the timer runs and has a start time; otherwise [time] becomes
    the remaining seconds and, at zero, the state expires. *)
Definition countdownFrame (now : Z) (state : TimerState) : TimerState :=
  match mode state, running state, startTime state with
  | timer, true, Some _ =>
      let r := remaining now state in
      let shown :=
        {| mode := mode state; displayFormat := displayFormat state;
           running := running state; paused := paused state; time := r;
           timerSet := timerSet state; flash := flash state;
           startTime := startTime state;
           pausedAccum := pausedAccum state |} in
      if r =? 0 then expire shown else shown
  | _, _, _ => state
  end.

(** One frame of the stopwatch effect, lines 1093-1110. *)
Definition stopwatchFrame (now : Z) (state : TimerState) : TimerState :=
  match mode state, running state, startTime state with
  | stopwatch, true, Some _ =>
      let elapsed :=
        elapsedSince now (startTime state)
          (match displayFormat state with hms => 1000 | ms => 10 end) in
      {| mode := mode state; displayFormat := displayFormat state;
         running := running state; paused := paused state;
         time := pausedAccum state + elapsed;
         timerSet := timerSet state; flash := flash state;
         startTime := startTime state; pausedAccum := pausedAccum state |}
  | _, _, _ => state
  end.

(** The timeout of the flash effect, lines 1167-1169, 3000 ms after the
    flag was raised. *)
Definition flashTimeout (prev : TimerState) : TimerState :=
  {| mode := clock; displayFormat := displayFormat prev;
     running := running prev; paused := paused prev; time := time prev;
     timerSet := 0; flash := false; startTime := startTime prev;
     pausedAccum := pausedAccum prev |}.

Definition FLASH_TIMEOUT : Z := 3000.

End ClockTimer.

(** * The spec's wording, and concrete runs of the component *)

(** ** Quantities the spec names *)

(** The spec's reading of a duration: "current elapsed converted to
    seconds regardless of display format". *)
Definition elapsed_in_seconds (s : Timer.TimerState) : Z :=
  match Timer.displayFormat s with
  | Timer.hms => Timer.time s
  | Timer.ms => Timer.time s / 100
  end.

(** The maxima as the spec words them: 99:59:59 in seconds for the timer
    and the [hms] stopwatch, 59:59.99 in centiseconds for the [ms]
    stopwatch. *)
Definition hms_value (h m sec : Z) : Z := h * 3600 + m * 60 + sec.
Definition ms_value (m sec cs : Z) : Z := (m * 60 + sec) * 100 + cs.

Definition spec_maximum (s : Timer.TimerState) : Z :=
  match Timer.mode s, Timer.displayFormat s with
  | Timer.timer, _ => hms_value 99 59 59
  | Timer.stopwatch, Timer.hms => hms_value 99 59 59
  | Timer.stopwatch, Timer.ms => ms_value 59 59 99
  end.

(** The stored time after the toggle of [timer.tsx]. *)
Definition toggled_time (s : Timer.TimerState) : Z :=
  match Timer.mode s, Timer.displayFormat s with
  | Timer.timer, _ => Timer.time s
  | Timer.stopwatch, Timer.hms => Timer.time s * 100
  | Timer.stopwatch, Timer.ms => Timer.time s / 100
  end.

(** The render captured by the handlers agrees with the state on the
    dependencies of the scene effect. *)
Definition scene_coherent (c : Timer.Component) : Prop :=
  Timer.mode (Timer.scene c) = Timer.mode (Timer.st c)
  /\ Timer.displayFormat (Timer.scene c) = Timer.displayFormat (Timer.st c).

(** ** Event sequences and the states they lead to *)

(** Timer mode, two presses of the minute button, start, [n] ticks of the
    one-second interval: the countdown scenario on [timer.tsx]. *)
Definition countdown_run (n : nat) : list Timer.Event :=
  [Timer.ModeButton; Timer.FieldButton Timer.MINUTES;
   Timer.FieldButton Timer.MINUTES; Timer.StartStopButton 0]
  ++ repeat Timer.IntervalTick n.

(** Stopwatch mode, start at time stamp [0], [n] ticks. *)
Definition stopwatch_run (n : nat) : list Timer.Event :=
  Timer.StartStopButton 0 :: repeat Timer.IntervalTick n.

(** The two-minute countdown of [timer.tsx] right after the start. *)
Definition running_timer : Timer.TimerState :=
  Timer.st (Timer.run Timer.initialComponent (countdown_run 0)).

(** The state of [timer.tsx] one tick before the end of the 120 second
    countdown. *)
Definition last_second : Timer.TimerState :=
  Timer.st (Timer.run Timer.initialComponent (countdown_run 119)).

(** A stopwatch of [timer.tsx] that has been running for five seconds. *)
Definition running_stopwatch : Timer.TimerState :=
  Timer.st (Timer.run Timer.initialComponent (stopwatch_run 5)).

(** A stopwatch of [timer.tsx] that ran five seconds and was paused. *)
Definition paused_at_five : Timer.TimerState :=
  Timer.st (Timer.run Timer.initialComponent
              (stopwatch_run 5 ++ [Timer.StartStopButton 5000])).

(** A stopwatch of [timer.tsx] in [ms] format, paused at 1234
    centiseconds. *)
Definition paused_at_1234 : Timer.TimerState :=
  Timer.st (Timer.run Timer.initialComponent
              (Timer.FormatButton :: stopwatch_run 1234
               ++ [Timer.StartStopButton 12340])).

(** The [ms] stopwatch of [timer.tsx] after 6500 ticks of 10 ms, that is
    65 seconds. *)
Definition sixty_five_seconds_ms : Timer.TimerState :=
  Timer.st (Timer.run Timer.initialComponent
              (Timer.FormatButton :: stopwatch_run (Z.to_nat 6500))).

(** The countdown scenario on the clock revision: mode button, minute
    button twice, start at time stamp [0]. *)
Definition clock_countdown : ClockTimer.TimerState :=
  ClockTimer.handleStartStop 0
    (ClockTimer.incrementField 60
       (ClockTimer.incrementField 60
          (ClockTimer.handleModeSwitch ClockTimer.initialState))).

(** * Further parts of the code *)

(** ** The session list: [src/contexts/SessionContext.tsx] *)

Module SessionContext.

(** The entries are the [LogEntry] records of the clock revision, which
    hands them to [addSession] (lines 35-37, [ClockTimer.addSession]). *)
Definition LogEntry : Type := ClockTimer.LogEntry.

(** [clearSessions], lines 39-41. *)
Definition clearSessions (prev : list LogEntry) : list LogEntry := [].

(** [removeSession], lines 43-45: [prev.filter((s) => s.id !== id)]. *)
Definition removeSession (id : string) (prev : list LogEntry)
    : list LogEntry :=
  filter (fun s => negb (String.eqb (ClockTimer.entry_id s) id)) prev.

(** The total of the history page, [src/unnamed/part_001] line 90:
    [sessions.reduce((total, session) => total + session.duration, 0)]. *)
Definition totalDuration (sessions : list LogEntry) : Z :=
  fold_left (fun total session => total + ClockTimer.duration session)
    sessions 0.

End SessionContext.

(** ** The statistics page: [src/app/stats/page.jsx] *)

Module Stats.

(** [str.includes(c)] for a one-character needle. *)
Fixpoint includes (c : ascii) (str : string) : bool :=
  match str with
  | EmptyString => false
  | String a rest => Ascii.eqb a c || includes c rest
  end.

(** The callback of the [reduce] in [calculateStats], lines 12-17. *)
Definition durationInSeconds (session : SessionContext.LogEntry) : Z :=
  let text := ClockTimer.formattedDuration session in
  if includes "M" text && includes "S" text && negb (includes "H" text)
  then Js.floor_div (ClockTimer.duration session) 100
  else ClockTimer.duration session.

(** [totalSessions] and [totalTime] of [calculateStats], lines 9-19.  The
    third figure, [averageTime], is a floating point quotient and is left
    out. *)
Definition totalSessions (sessions : list SessionContext.LogEntry) : Z :=
  Z.of_nat (List.length sessions).

Definition totalTime (sessions : list SessionContext.LogEntry) : Z :=
  fold_left (fun acc session => acc + durationInSeconds session) sessions 0.

End Stats.

(** ** More of the clock revision *)

Module ClockRun.

Import ClockTimer.

(** [formatTimeForDisplay], [src/README.md] lines 179-213.  In clock mode
    the text comes from [toLocaleTimeString]; it is the parameter
    [clockText]. *)
Definition formatTimeForDisplay (clockText : string) (state : TimerState)
    (t : Z) : string :=
  match mode state with
  | clock => clockText
  | _ =>
      let time := Z.max 0 t in
      match mode state, displayFormat state with
      | stopwatch, ms =>
          let cs := time mod 100 in
          let totalSeconds := Js.floor_div time 100 in
          let m := two_digits (Js.floor_div totalSeconds 60) in
          let s := two_digits (totalSeconds mod 60) in
          (m ++ "M" ++ s ++ "S" ++ two_digits cs)%string
      | _, _ =>
          let h := two_digits (Js.floor_div time 3600) in
          let m := two_digits (Js.floor_div (time mod 3600) 60) in
          let s := two_digits (time mod 60) in
          (h ++ "H" ++ m ++ "M" ++ s ++ "S")%string
      end
  end.

(** The effect of lines 1178-1182: a timer that is neither running, nor
    paused, nor flashing stores [timerSet]. *)
Definition restoreTimerSet (state : TimerState) : TimerState :=
  match running state, paused state, mode state, flash state with
  | false, false, timer, false =>
      {| mode := mode state; displayFormat := displayFormat state;
         running := running state; paused := paused state;
         time := timerSet state; timerSet := timerSet state;
         flash := flash state; startTime := startTime state;
         pausedAccum := pausedAccum state |}
  | _, _, _, _ => state
  end.

(** The state updates of the component.  [LogUpdate] is the value the
    updater of [handleLog] returns; the [handleReset] it enqueues is an
    update of its own, [ResetUpdate]. *)
Inductive Update : Type :=
  | StartStopUpdate (now : Z)
  | ModeUpdate
  | FormatUpdate
  | ResetUpdate
  | HoursUpdate
  | MinutesUpdate
  | SecondsUpdate
  | LogUpdate (now : Z)
  | CountdownUpdate (now : Z)
  | StopwatchUpdate (now : Z)
  | FlashTimeoutUpdate
  | RestoreUpdate.

Definition apply (u : Update) (state : TimerState) : TimerState :=
  match u with
  | StartStopUpdate now => handleStartStop now state
  | ModeUpdate => handleModeSwitch state
  | FormatUpdate => handleFormatToggle state
  | ResetUpdate => handleReset state
  | HoursUpdate => incrementField 3600 state
  | MinutesUpdate => incrementField 60 state
  | SecondsUpdate => incrementField 1 state
  | LogUpdate now => fst (handleLog now state [])
  | CountdownUpdate now => countdownFrame now state
  | StopwatchUpdate now => stopwatchFrame now state
  | FlashTimeoutUpdate => flashTimeout state
  | RestoreUpdate => restoreTimerSet state
  end.

Definition run (updates : list Update) : TimerState :=
  fold_left (fun state u => apply u state) updates initialState.

(** Running, paused and stopped as the start time tells them apart. *)
Definition run_flags_consistent (state : TimerState) : Prop :=
  (running state = true <-> startTime state <> None)
  /\ (running state = true -> paused state = false).

Definition target_in_range (state : TimerState) : Prop :=
  0 <= timerSet state <= TIMER_CONSTANTS.TIMER_MAX.

End ClockRun.

(** ** Auxiliary notions for [timer.tsx] *)

(** [{...state, time: t}]. *)
Definition set_time (state : Timer.TimerState) (t : Z) : Timer.TimerState :=
  {| Timer.mode := Timer.mode state;
     Timer.displayFormat := Timer.displayFormat state;
     Timer.running := Timer.running state;
     Timer.paused := Timer.paused state;
     Timer.time := t; Timer.timerSet := Timer.timerSet state;
     Timer.flash := Timer.flash state;
     Timer.startTime := Timer.startTime state |}.

(** The increments the three field buttons send. *)
Definition button_event (e : Timer.Event) : Prop :=
  match e with
  | Timer.FieldButton unit =>
      unit = Timer.HOURS \/ unit = Timer.MINUTES \/ unit = Timer.SECONDS
  | _ => True
  end.

(** The ranges the stored numbers stay in. *)
Definition within_bounds (state : Timer.TimerState) : Prop :=
  0 <= Timer.timerSet state <= TIMER_CONSTANTS.TIMER_MAX
  /\ 0 <= Timer.time state
  /\ match Timer.mode state, Timer.displayFormat state with
     | Timer.timer, _ => Timer.time state <= Timer.timerSet state
     | Timer.stopwatch, Timer.hms =>
         Timer.time state <= TIMER_CONSTANTS.STOPWATCH_HMS_MAX
     | Timer.stopwatch, Timer.ms =>
         Timer.time state <= 100 * TIMER_CONSTANTS.STOPWATCH_HMS_MAX
     end.



(** Readers of the two display layouts, the inverses of [formatTime] used
    to show that the display is unambiguous; they are not part of the
    component. *)
Definition digit_value (c : ascii) : option Z :=
  let code := Z.of_nat (nat_of_ascii c) in
  if (48 <=? code) && (code <=? 57) then Some (code - 48) else None.

Definition pair_value (a b : ascii) : option Z :=
  match digit_value a, digit_value b with
  | Some x, Some y => Some (10 * x + y)
  | _, _ => None
  end.

Definition read_hms (text : string) : option Z :=
  match text with
  | String h1 (String h2 (String ":" (String m1 (String m2
      (String ":" (String s1 (String s2 EmptyString))))))) =>
      match pair_value h1 h2, pair_value m1 m2, pair_value s1 s2 with
      | Some h, Some m, Some sec => Some (h * 3600 + m * 60 + sec)
      | _, _, _ => None
      end
  | _ => None
  end%char.

Definition read_ms (text : string) : option Z :=
  match text with
  | String m1 (String m2 (String ":" (String s1 (String s2
      (String "." (String c1 (String c2 EmptyString))))))) =>
      match pair_value m1 m2, pair_value s1 s2, pair_value c1 c2 with
      | Some m, Some sec, Some cs => Some ((m * 60 + sec) * 100 + cs)
      | _, _, _ => None
      end
  | _ => None
  end%char.

(** * Properties *)

(** ** Expiry of the countdown *)

Lemma timerTick_expires (s : Timer.TimerState) :
  Timer.time s <= 1 ->
  Timer.timerTick s =
  {| Timer.mode := Timer.mode s; Timer.displayFormat := Timer.displayFormat s;
     Timer.running := false; Timer.paused := false; Timer.time := 0;
     Timer.timerSet := Timer.timerSet s; Timer.flash := true;
     Timer.startTime := Timer.startTime s |}.
Proof.
  intros H. unfold Timer.timerTick.
  destruct (Z.leb_spec (Timer.time s) 1); [reflexivity | lia].
Qed.

Lemma countdownFrame_expires (now : Z) (s : ClockTimer.TimerState) :
  ClockTimer.mode s = ClockTimer.timer ->
  ClockTimer.running s = true ->
  ClockTimer.startTime s <> None ->
  ClockTimer.remaining now s = 0 ->
  ClockTimer.countdownFrame now s =
  {| ClockTimer.mode := ClockTimer.timer;
     ClockTimer.displayFormat := ClockTimer.displayFormat s;
     ClockTimer.running := false; ClockTimer.paused := false;
     ClockTimer.time := 0; ClockTimer.timerSet := ClockTimer.timerSet s;
     ClockTimer.flash := true; ClockTimer.startTime := None;
     ClockTimer.pausedAccum := 0 |}.
Proof.
  intros Hm Hr Hs H0. unfold ClockTimer.countdownFrame.
  rewrite Hm, Hr. destruct (ClockTimer.startTime s) as [t|]; [|congruence].
  rewrite H0. reflexivity.
Qed.

(** C1 (as amended).  When a tick finds the countdown at its end (stored
    time at most 1 in [timer.tsx], zero seconds remaining in the clock
    revision) the state update sets [running = false], [flash = true] and
    [time = 0]; in [timer.tsx] the render that follows stores [timerSet] in
    [time] again.  When the flash timeout fires the flag is cleared: in
    [timer.tsx] the mode and [timerSet] stay as they were, in the clock
    revision the mode becomes [clock] and [timerSet] becomes 0. *)
Theorem C1_expiry_and_flash_timeout :
  (forall s : Timer.TimerState,
      Timer.mode s = Timer.timer ->
      Timer.running s = true -> Timer.paused s = false ->
      Timer.time s <= 1 ->
      let e := Timer.tick s in
      (Timer.running e = false /\ Timer.flash e = true /\ Timer.time e = 0)
      /\ (forall c, Timer.st c = s ->
            let c' := Timer.step c Timer.IntervalTick in
            Timer.running (Timer.st c') = false
            /\ Timer.flash (Timer.st c') = true
            /\ Timer.time (Timer.st c') = Timer.timerSet s)
      /\ (let f := Timer.flashTimeout e in
          Timer.flash f = false
          /\ Timer.mode f = Timer.timer
          /\ Timer.timerSet f = Timer.timerSet s))
  /\
  (forall (now : Z) (s : ClockTimer.TimerState),
      ClockTimer.mode s = ClockTimer.timer ->
      ClockTimer.running s = true ->
      ClockTimer.startTime s <> None ->
      ClockTimer.remaining now s = 0 ->
      let e := ClockTimer.countdownFrame now s in
      (ClockTimer.running e = false /\ ClockTimer.flash e = true
       /\ ClockTimer.time e = 0)
      /\ (let f := ClockTimer.flashTimeout e in
          ClockTimer.flash f = false
          /\ ClockTimer.mode f = ClockTimer.clock
          /\ ClockTimer.timerSet f = 0)).
Proof.
  split.
  - intros s Hm Hr Hp Ht e.
    assert (He : e = Timer.timerTick s).
    { unfold e, Timer.tick. now rewrite Hr, Hp, Hm. }
    split; [| split].
    + rewrite He, (timerTick_expires s Ht). simpl. auto.
    + intros c Hc c'. unfold c', Timer.step, Timer.commit. rewrite Hc.
      fold e. rewrite He, (timerTick_expires s Ht).
      unfold Timer.restoreDepsChanged, Timer.restoreTimerSet. simpl.
      rewrite Hr, Hm. simpl. rewrite Z.eqb_refl. simpl. auto.
    + rewrite He, (timerTick_expires s Ht). simpl. auto.
  - intros now s Hm Hr Hs H0 e. unfold e.
    rewrite (countdownFrame_expires now s Hm Hr Hs H0). simpl.
    repeat split.
Qed.

Lemma C1_expiry_and_flash_timeout_witness :
  (Timer.time last_second <= 1
   /\ Timer.flash (Timer.tick last_second) = true
   /\ Timer.timerSet (Timer.flashTimeout (Timer.tick last_second)) = 120)
  /\
  (ClockTimer.remaining 120000 clock_countdown = 0
   /\ ClockTimer.mode
        (ClockTimer.flashTimeout
           (ClockTimer.countdownFrame 120000 clock_countdown))
      = ClockTimer.clock).
Proof.
  split.
  - assert (Ht : Timer.time last_second <= 1) by (vm_compute; discriminate).
    destruct (proj1 C1_expiry_and_flash_timeout last_second
                eq_refl eq_refl eq_refl Ht) as [[_ [Hf _]] [_ [_ [_ Hs]]]].
    split; [exact Ht | split; [exact Hf | exact Hs]].
  - assert (H0 : ClockTimer.remaining 120000 clock_countdown = 0)
      by reflexivity.
    assert (Hs : ClockTimer.startTime clock_countdown <> None)
      by discriminate.
    destruct (proj2 C1_expiry_and_flash_timeout 120000 clock_countdown
                eq_refl eq_refl Hs H0) as [_ [_ [Hm _]]].
    split; [exact H0 | exact Hm].
Defined.

(** On [timer.tsx] the countdown scenario (two minutes set, start, 120
    ticks) ends with the flag raised and [timerSet] stored in [time] again;
    once the flash timeout has fired the mode is still [timer] and
    [timerSet] is still 120, not 0. *)
Lemma C1_counterexample :
  let expired := Timer.run Timer.initialComponent (countdown_run 120) in
  let after := Timer.step expired Timer.FlashTimer in
  Timer.flash (Timer.st expired) = true
  /\ Timer.running (Timer.st expired) = false
  /\ Timer.time (Timer.st expired) = 120
  /\ Timer.flash (Timer.st after) = false
  /\ Timer.mode (Timer.st after) = Timer.timer
  /\ Timer.timerSet (Timer.st after) = 120
  /\ Timer.timerSet (Timer.st after) <> 0.
Proof. vm_compute. repeat split; discriminate. Qed.

(** In [timer.tsx] the 300 ms interval negates the flag, which removes the
    interval: after its first firing the flag is down, well before the
    timeout. *)
Lemma flash_interval_fires_once :
  let expired := Timer.run Timer.initialComponent (countdown_run 120) in
  let blinked := Timer.step expired Timer.FlashInterval in
  Timer.flash (Timer.st blinked) = false
  /\ Timer.step blinked Timer.FlashInterval = blinked
  /\ Timer.step blinked Timer.FlashTimer = blinked.
Proof. vm_compute. repeat split. Qed.

(** ** Reset *)

(** C2 (as amended).  The reset button of [timer.tsx] stops the run
    ([running = false], [paused = false], no start time) and leaves the mode
    and [timerSet] alone; the stored time becomes [timerSet] in timer mode
    and 0 in stopwatch mode.  [handleReset] of the clock revision yields
    [mode = clock], [running = false], [paused = false], [time = 0] and
    [timerSet = 0] from every state. *)
Theorem C2_reset :
  (forall s : Timer.TimerState,
      Timer.handleReset s =
      {| Timer.mode := Timer.mode s;
         Timer.displayFormat := Timer.displayFormat s;
         Timer.running := false; Timer.paused := false;
         Timer.time := match Timer.mode s with
                       | Timer.timer => Timer.timerSet s
                       | Timer.stopwatch => 0
                       end;
         Timer.timerSet := Timer.timerSet s; Timer.flash := Timer.flash s;
         Timer.startTime := None |})
  /\
  (forall s : ClockTimer.TimerState,
      let r := ClockTimer.handleReset s in
      ClockTimer.mode r = ClockTimer.clock
      /\ ClockTimer.running r = false
      /\ ClockTimer.paused r = false
      /\ ClockTimer.time r = 0
      /\ ClockTimer.timerSet r = 0
      /\ ClockTimer.startTime r = None
      /\ ClockTimer.pausedAccum r = 0).
Proof.
  split.
  - intros s. reflexivity.
  - intros s r. unfold r, ClockTimer.handleReset. simpl. repeat split.
Qed.

(** On [timer.tsx], resetting the running two-minute countdown leaves
    [time = 120] and [timerSet = 120] in timer mode. *)
Lemma C2_counterexample :
  let c := Timer.run Timer.initialComponent (countdown_run 5) in
  let r := Timer.step c Timer.ResetButton in
  Timer.running (Timer.st c) = true
  /\ Timer.mode (Timer.st r) = Timer.timer
  /\ Timer.running (Timer.st r) = false
  /\ Timer.time (Timer.st r) = 120
  /\ Timer.timerSet (Timer.st r) = 120
  /\ ~ (Timer.time (Timer.st r) = 0 /\ Timer.timerSet (Timer.st r) = 0).
Proof.
  vm_compute. repeat split; try discriminate.
  intros [H _]. discriminate H.
Qed.

(** ** The format toggle *)

Lemma handleFormatToggle_fields (s : Timer.TimerState) :
  Timer.handleFormatToggle s =
  {| Timer.mode := Timer.mode s;
     Timer.displayFormat := Timer.swapFormat (Timer.displayFormat s);
     Timer.running := Timer.running s; Timer.paused := Timer.paused s;
     Timer.time := toggled_time s; Timer.timerSet := Timer.timerSet s;
     Timer.flash := Timer.flash s; Timer.startTime := Timer.startTime s |}.
Proof.
  unfold Timer.handleFormatToggle, toggled_time, Js.floor_div.
  destruct (Timer.mode s), (Timer.displayFormat s); reflexivity.
Qed.

Lemma swapFormat_differs (f : Timer.DisplayFormat) : Timer.swapFormat f <> f.
Proof. destruct f; discriminate. Qed.

Lemma clock_toggle_when_stopped (s : ClockTimer.TimerState) :
  ClockTimer.running s = false -> ClockTimer.paused s = false ->
  ClockTimer.handleFormatToggle s =
  {| ClockTimer.mode := ClockTimer.mode s;
     ClockTimer.displayFormat :=
       ClockTimer.swapFormat (ClockTimer.displayFormat s);
     ClockTimer.running := false; ClockTimer.paused := false;
     ClockTimer.time := ClockTimer.time s;
     ClockTimer.timerSet := ClockTimer.timerSet s;
     ClockTimer.flash := ClockTimer.flash s;
     ClockTimer.startTime := ClockTimer.startTime s;
     ClockTimer.pausedAccum := ClockTimer.pausedAccum s |}.
Proof.
  intros Hr Hp. unfold ClockTimer.handleFormatToggle.
  rewrite Hr, Hp. reflexivity.
Qed.

Lemma clock_toggle_when_busy (s : ClockTimer.TimerState) :
  ClockTimer.running s = true \/ ClockTimer.paused s = true ->
  ClockTimer.handleFormatToggle s = s.
Proof.
  intros [H | H]; unfold ClockTimer.handleFormatToggle; rewrite H;
    [| destruct (ClockTimer.running s)]; reflexivity.
Qed.

(** C3 (as amended).  The toggle swaps [displayFormat] and never touches
    [timerSet].  In [timer.tsx] the stored time is kept as it is in timer
    mode only; in stopwatch mode it is converted, times 100 from [hms] to
    [ms] and [Math.floor(time / 100)] from [ms] to [hms].  In the clock
    revision a permitted toggle (neither running nor paused) keeps the
    stored time and [timerSet] as they are. *)
Theorem C3_toggle_format_conversion :
  (forall s : Timer.TimerState,
      let t := Timer.handleFormatToggle s in
      Timer.displayFormat t = Timer.swapFormat (Timer.displayFormat s)
      /\ Timer.timerSet t = Timer.timerSet s
      /\ (Timer.mode s = Timer.timer -> Timer.time t = Timer.time s)
      /\ (Timer.mode s = Timer.stopwatch ->
          Timer.displayFormat s = Timer.hms ->
          Timer.time t = Timer.time s * 100)
      /\ (Timer.mode s = Timer.stopwatch ->
          Timer.displayFormat s = Timer.ms ->
          Timer.time t = Timer.time s / 100))
  /\
  (forall s : ClockTimer.TimerState,
      ClockTimer.running s = false -> ClockTimer.paused s = false ->
      let t := ClockTimer.handleFormatToggle s in
      ClockTimer.displayFormat t
      = ClockTimer.swapFormat (ClockTimer.displayFormat s)
      /\ ClockTimer.time t = ClockTimer.time s
      /\ ClockTimer.timerSet t = ClockTimer.timerSet s).
Proof.
  split.
  - intros s t. unfold t. rewrite handleFormatToggle_fields. simpl.
    unfold toggled_time.
    repeat split; intros Hm; try intros Hf; rewrite Hm; try rewrite Hf;
      reflexivity.
  - intros s Hr Hp t. unfold t.
    rewrite (clock_toggle_when_stopped s Hr Hp). simpl. repeat split.
Qed.

Lemma C3_toggle_format_conversion_witness :
  (Timer.mode paused_at_five = Timer.stopwatch
   /\ Timer.displayFormat paused_at_five = Timer.hms
   /\ Timer.time (Timer.handleFormatToggle paused_at_five) = 5 * 100)
  /\
  (ClockTimer.running ClockTimer.initialState = false
   /\ ClockTimer.paused ClockTimer.initialState = false
   /\ ClockTimer.time (ClockTimer.handleFormatToggle ClockTimer.initialState)
      = ClockTimer.time ClockTimer.initialState).
Proof.
  split.
  - destruct (proj1 C3_toggle_format_conversion paused_at_five)
      as [_ [_ [_ [H _]]]].
    split; [reflexivity | split; [reflexivity |]].
    exact (H eq_refl eq_refl).
  - destruct (proj2 C3_toggle_format_conversion ClockTimer.initialState
                eq_refl eq_refl) as [_ [H _]].
    split; [reflexivity | split; [reflexivity |]].
    exact H.
Defined.

(** On [timer.tsx], toggling the format of a stopwatch paused at five
    seconds turns the stored 5 into 500. *)
Lemma C3_counterexample :
  Timer.mode paused_at_five = Timer.stopwatch
  /\ Timer.paused paused_at_five = true
  /\ Timer.time paused_at_five = 5
  /\ Timer.time (Timer.handleFormatToggle paused_at_five) = 500
  /\ Timer.time (Timer.handleFormatToggle paused_at_five)
     <> Timer.time paused_at_five.
Proof. vm_compute. repeat split; discriminate. Qed.

(** C5 (as amended).  The toggle of [timer.tsx] has no precondition: in
    every state, running and paused ones included, it changes
    [displayFormat] and keeps [running] and [paused].  Only the clock
    revision restricts it: while running or paused the command leaves the
    state unchanged, otherwise it swaps the format. *)
Theorem C5_toggle_format_guard :
  (forall s : Timer.TimerState,
      let t := Timer.handleFormatToggle s in
      Timer.displayFormat t <> Timer.displayFormat s
      /\ Timer.running t = Timer.running s
      /\ Timer.paused t = Timer.paused s)
  /\
  (forall s : ClockTimer.TimerState,
      ClockTimer.running s = true \/ ClockTimer.paused s = true ->
      ClockTimer.handleFormatToggle s = s)
  /\
  (forall s : ClockTimer.TimerState,
      ClockTimer.running s = false -> ClockTimer.paused s = false ->
      ClockTimer.displayFormat (ClockTimer.handleFormatToggle s)
      = ClockTimer.swapFormat (ClockTimer.displayFormat s)).
Proof.
  split; [| split].
  - intros s t. unfold t. rewrite handleFormatToggle_fields. simpl.
    split; [apply swapFormat_differs | split; reflexivity].
  - exact clock_toggle_when_busy.
  - intros s Hr Hp. now rewrite (clock_toggle_when_stopped s Hr Hp).
Qed.

Lemma C5_toggle_format_guard_witness :
  (ClockTimer.running clock_countdown = true
   /\ ClockTimer.handleFormatToggle clock_countdown = clock_countdown)
  /\
  (ClockTimer.running ClockTimer.initialState = false
   /\ ClockTimer.paused ClockTimer.initialState = false
   /\ ClockTimer.displayFormat
        (ClockTimer.handleFormatToggle ClockTimer.initialState)
      = ClockTimer.ms).
Proof.
  split.
  - split; [reflexivity |].
    exact (proj1 (proj2 C5_toggle_format_guard) clock_countdown
             (or_introl eq_refl)).
  - split; [reflexivity | split; [reflexivity |]].
    exact (proj2 (proj2 C5_toggle_format_guard) ClockTimer.initialState
             eq_refl eq_refl).
Defined.

(** On [timer.tsx], the format button pressed while the stopwatch runs is
    not ignored: the format changes and the stored time with it. *)
Lemma C5_counterexample :
  let c := Timer.run Timer.initialComponent (stopwatch_run 5) in
  let t := Timer.step c Timer.FormatButton in
  Timer.running (Timer.st c) = true
  /\ Timer.displayFormat (Timer.st c) = Timer.hms
  /\ Timer.displayFormat (Timer.st t) = Timer.ms
  /\ Timer.time (Timer.st t) = 500
  /\ Timer.st t <> Timer.st c.
Proof. vm_compute. repeat split; discriminate. Qed.

(** C10.  In stopwatch mode of [timer.tsx], two toggles starting from [hms]
    give [time * 100] and then [Math.floor(time * 100 / 100)], the
    original value; two toggles starting from [ms] give
    [Math.floor(time / 100)] and then [Math.floor(time / 100) * 100], the
    stored time cut down to a multiple of 100 centiseconds. *)
Theorem C10_toggle_format_twice (s : Timer.TimerState) :
  Timer.mode s = Timer.stopwatch ->
  let once := Timer.handleFormatToggle s in
  let twice := Timer.handleFormatToggle once in
  (Timer.displayFormat s = Timer.hms ->
     Timer.time once = Timer.time s * 100
     /\ Timer.time twice = Js.floor_div (Timer.time s * 100) 100
     /\ Timer.time twice = Timer.time s
     /\ twice = s)
  /\
  (Timer.displayFormat s = Timer.ms ->
     Timer.time once = Js.floor_div (Timer.time s) 100
     /\ Timer.time twice = Js.floor_div (Timer.time s) 100 * 100
     /\ Timer.time twice = Timer.time s - Timer.time s mod 100
     /\ Timer.time twice <= Timer.time s
     /\ Timer.time twice mod 100 = 0
     /\ Timer.displayFormat twice = Timer.ms).
Proof.
  intros Hm once twice. unfold twice, once.
  rewrite !handleFormatToggle_fields. unfold toggled_time, Js.floor_div.
  simpl. rewrite Hm.
  split; intros Hf; rewrite Hf; simpl.
  - rewrite Z.div_mul by discriminate.
    repeat split.
    destruct s; simpl in *; subst; reflexivity.
  - pose proof (Z.div_mod (Timer.time s) 100 ltac:(discriminate)) as Hd.
    pose proof (Z.mod_pos_bound (Timer.time s) 100 eq_refl) as Hb.
    repeat split; try lia.
    apply Z.mod_mul. discriminate.
Qed.

Lemma C10_toggle_format_twice_witness :
  (Timer.mode paused_at_five = Timer.stopwatch
   /\ Timer.displayFormat paused_at_five = Timer.hms
   /\ Timer.time
        (Timer.handleFormatToggle (Timer.handleFormatToggle paused_at_five))
      = Timer.time paused_at_five)
  /\
  (Timer.mode paused_at_1234 = Timer.stopwatch
   /\ Timer.displayFormat paused_at_1234 = Timer.ms
   /\ Timer.time paused_at_1234 = 1234
   /\ Timer.time
        (Timer.handleFormatToggle (Timer.handleFormatToggle paused_at_1234))
      = 12 * 100).
Proof.
  split.
  - destruct (proj1 (C10_toggle_format_twice paused_at_five eq_refl) eq_refl)
      as [_ [_ [H _]]].
    split; [reflexivity | split; [reflexivity |]].
    exact H.
  - destruct (proj2 (C10_toggle_format_twice paused_at_1234 eq_refl) eq_refl)
      as [_ [H _]].
    split; [reflexivity | split; [reflexivity | split; [reflexivity |]]].
    exact H.
Defined.

(** ** Logging a stopwatch session *)

Lemma handleLog_succeeds (now started : Z) (s : Timer.TimerState)
    (entries : list Timer.LogEntry) :
  Timer.mode s = Timer.stopwatch ->
  Timer.startTime s = Some started ->
  0 < Timer.time s ->
  Timer.handleLog now s entries =
  ({| Timer.mode := Timer.stopwatch;
      Timer.displayFormat := Timer.displayFormat s;
      Timer.running := false; Timer.paused := false; Timer.time := 0;
      Timer.timerSet := Timer.timerSet s; Timer.flash := Timer.flash s;
      Timer.startTime := None |},
   {| Timer.entry_id := Js.toString now;
      Timer.entry_startTime := started;
      Timer.duration := Timer.time s;
      Timer.formattedDuration := Timer.formatTime s (Timer.time s) |}
   :: entries).
Proof.
  intros Hm Hs Ht. unfold Timer.handleLog. rewrite Hm, Hs.
  destruct (Z.ltb_spec 0 (Timer.time s)); [reflexivity | lia].
Qed.

Lemma clock_handleLog_succeeds (now started : Z) (s : ClockTimer.TimerState)
    (sessions : list ClockTimer.LogEntry) :
  ClockTimer.mode s = ClockTimer.stopwatch ->
  ClockTimer.startTime s = Some started ->
  0 < ClockTimer.time s ->
  snd (ClockTimer.handleLog now s sessions) =
  {| ClockTimer.entry_id := Js.toString now;
     ClockTimer.entry_startTime := started;
     ClockTimer.duration := ClockTimer.time s;
     ClockTimer.formattedDuration :=
       ClockTimer.formatTimeForLog (ClockTimer.time s)
         (ClockTimer.displayFormat s) |}
  :: sessions.
Proof.
  intros Hm Hs Ht. unfold ClockTimer.handleLog. rewrite Hm, Hs. simpl.
  destruct (Z.ltb_spec 0 (ClockTimer.time s)); [reflexivity | lia].
Qed.

(** C4 (as amended).  A successful log puts one entry in front of the
    list whose [duration] is the stored time as it is: seconds in [hms]
    format, centiseconds in [ms] format, with no conversion.  The
    65-second [hms] stopwatch session yields [duration = 65] and
    [formattedDuration = "00:01:05"], and the stopwatch is back to stopped
    at 0.  Both revisions store the time unconverted. *)
Theorem C4_log_entry_duration :
  (forall (now started : Z) (s : Timer.TimerState)
          (entries : list Timer.LogEntry),
      Timer.mode s = Timer.stopwatch ->
      Timer.startTime s = Some started ->
      0 < Timer.time s ->
      exists entry,
        snd (Timer.handleLog now s entries) = entry :: entries
        /\ Timer.duration entry = Timer.time s
        /\ Timer.formattedDuration entry = Timer.formatTime s (Timer.time s)
        /\ Timer.entry_startTime entry = started
        /\ (Timer.displayFormat s = Timer.hms ->
            Timer.duration entry = elapsed_in_seconds s))
  /\
  (let c := Timer.run Timer.initialComponent
              (stopwatch_run 65 ++ [Timer.LogButton 65000]) in
   Timer.logEntries c =
     [ {| Timer.entry_id := "65000"; Timer.entry_startTime := 0;
          Timer.duration := 65; Timer.formattedDuration := "00:01:05" |} ]
   /\ Timer.st c = Timer.initialState)
  /\
  (forall (now started : Z) (s : ClockTimer.TimerState)
          (sessions : list ClockTimer.LogEntry),
      ClockTimer.mode s = ClockTimer.stopwatch ->
      ClockTimer.startTime s = Some started ->
      0 < ClockTimer.time s ->
      exists entry,
        snd (ClockTimer.handleLog now s sessions) = entry :: sessions
        /\ ClockTimer.duration entry = ClockTimer.time s).
Proof.
  split; [| split].
  - intros now started s entries Hm Hs Ht.
    rewrite (handleLog_succeeds now started s entries Hm Hs Ht).
    eexists. split; [reflexivity |]. simpl.
    repeat split. intros Hf. unfold elapsed_in_seconds. now rewrite Hf.
  - vm_compute. split; reflexivity.
  - intros now started s sessions Hm Hs Ht.
    rewrite (clock_handleLog_succeeds now started s sessions Hm Hs Ht).
    eexists. split; reflexivity.
Qed.

Lemma C4_log_entry_duration_witness :
  (Timer.mode sixty_five_seconds_ms = Timer.stopwatch
   /\ Timer.startTime sixty_five_seconds_ms = Some 0
   /\ 0 < Timer.time sixty_five_seconds_ms
   /\ exists entry,
        snd (Timer.handleLog 65000 sixty_five_seconds_ms []) = [entry]
        /\ Timer.duration entry = Timer.time sixty_five_seconds_ms)
  /\
  (exists entry,
      snd (ClockTimer.handleLog 65000
             {| ClockTimer.mode := ClockTimer.stopwatch;
                ClockTimer.displayFormat := ClockTimer.hms;
                ClockTimer.running := true; ClockTimer.paused := false;
                ClockTimer.time := 65; ClockTimer.timerSet := 0;
                ClockTimer.flash := false; ClockTimer.startTime := Some 0;
                ClockTimer.pausedAccum := 0 |} []) = [entry]
      /\ ClockTimer.duration entry = 65).
Proof.
  split.
  - assert (Hm : Timer.mode sixty_five_seconds_ms = Timer.stopwatch)
      by (vm_compute; reflexivity).
    assert (Hs : Timer.startTime sixty_five_seconds_ms = Some 0)
      by (vm_compute; reflexivity).
    assert (Ht : 0 < Timer.time sixty_five_seconds_ms)
      by (vm_compute; reflexivity).
    destruct (proj1 C4_log_entry_duration 65000 0 sixty_five_seconds_ms []
                Hm Hs Ht) as [entry [He [Hd _]]].
    split; [exact Hm | split; [exact Hs | split; [exact Ht |]]].
    exists entry. split; [exact He | exact Hd].
  - destruct (proj2 (proj2 C4_log_entry_duration) 65000 0
                {| ClockTimer.mode := ClockTimer.stopwatch;
                   ClockTimer.displayFormat := ClockTimer.hms;
                   ClockTimer.running := true; ClockTimer.paused := false;
                   ClockTimer.time := 65; ClockTimer.timerSet := 0;
                   ClockTimer.flash := false; ClockTimer.startTime := Some 0;
                   ClockTimer.pausedAccum := 0 |} []
                eq_refl eq_refl eq_refl) as [entry [He Hd]].
    exists entry. split; [exact He | exact Hd].
Defined.

(** On [timer.tsx], a 65-second session in [ms] format is logged with
    [duration = 6500], not with the 65 the conversion to seconds gives. *)
Lemma C4_counterexample :
  let c := Timer.run Timer.initialComponent
             (Timer.FormatButton :: stopwatch_run (Z.to_nat 6500)
              ++ [Timer.LogButton 65000]) in
  elapsed_in_seconds sixty_five_seconds_ms = 65
  /\ Timer.logEntries c =
       [ {| Timer.entry_id := "65000"; Timer.entry_startTime := 0;
            Timer.duration := 6500;
            Timer.formattedDuration := "01:05.00" |} ]
  /\ (forall entry, In entry (Timer.logEntries c) ->
        Timer.duration entry <> elapsed_in_seconds sixty_five_seconds_ms).
Proof.
  vm_compute. split; [reflexivity | split; [reflexivity |]].
  intros entry [H | []]. subst entry. discriminate.
Qed.

Lemma restoreDepsChanged_same (s : Timer.TimerState) :
  Timer.restoreDepsChanged s s = false.
Proof.
  unfold Timer.restoreDepsChanged. rewrite Z.eqb_refl, !Bool.eqb_reflx.
  destruct (Timer.mode s); reflexivity.
Qed.

Lemma sceneDepsChanged_same (s : Timer.TimerState) :
  Timer.sceneDepsChanged s s = false.
Proof.
  unfold Timer.sceneDepsChanged.
  destruct (Timer.mode s), (Timer.displayFormat s); reflexivity.
Qed.

Lemma commit_same (c : Timer.Component) :
  Timer.commit c (Timer.st c) (Timer.logEntries c) = c.
Proof.
  unfold Timer.commit.
  rewrite restoreDepsChanged_same, sceneDepsChanged_same.
  destruct c; reflexivity.
Qed.

(** C8.  In [timer.tsx], [handleLog] called with a stored time of 0, or in
    a mode other than stopwatch, adds no entry and leaves the state as it
    is; the same holds for the whole component when the log button is
    pressed. *)
Theorem C8_log_without_session_is_noop (now : Z) (s : Timer.TimerState)
    (entries : list Timer.LogEntry) :
  Timer.time s = 0 \/ Timer.mode s <> Timer.stopwatch ->
  Timer.handleLog now s entries = (s, entries)
  /\ (forall c, Timer.st c = s -> Timer.logEntries c = entries ->
        Timer.step c (Timer.LogButton now) = c).
Proof.
  intros H.
  assert (Hlog : Timer.handleLog now s entries = (s, entries)).
  { unfold Timer.handleLog. destruct H as [H | H].
    - rewrite H. simpl.
      destruct (Timer.mode s), (Timer.startTime s); reflexivity.
    - destruct (Timer.mode s); [reflexivity | congruence]. }
  split; [exact Hlog |].
  intros c Hs He. unfold Timer.step. rewrite Hs, He, Hlog.
  rewrite <- Hs, <- He. apply commit_same.
Qed.

Lemma C8_log_without_session_is_noop_witness :
  (Timer.time Timer.initialState = 0
   /\ Timer.handleLog 1000 Timer.initialState []
      = (Timer.initialState, []))
  /\
  (Timer.mode last_second <> Timer.stopwatch
   /\ Timer.handleLog 1000 last_second [] = (last_second, [])).
Proof.
  split.
  - split; [reflexivity |].
    exact (proj1 (C8_log_without_session_is_noop 1000 Timer.initialState []
                    (or_introl eq_refl))).
  - assert (Hm : Timer.mode last_second <> Timer.stopwatch)
      by (vm_compute; discriminate).
    split; [exact Hm |].
    exact (proj1 (C8_log_without_session_is_noop 1000 last_second []
                    (or_intror Hm))).
Defined.

(** ** Starting a timer with nothing set *)

Lemma handleStartStop_from_stopped (now : Z) (s : Timer.TimerState) :
  Timer.running s = false -> Timer.paused s = false ->
  Timer.running (Timer.handleStartStop now s) = true.
Proof.
  intros Hr Hp. unfold Timer.handleStartStop. now rewrite Hp, Hr.
Qed.

Lemma clock_handleStartStop_zero_target (now : Z)
    (s : ClockTimer.TimerState) :
  ClockTimer.mode s = ClockTimer.timer ->
  ClockTimer.timerSet s = 0 ->
  ClockTimer.handleStartStop now s = s.
Proof.
  intros Hm Hz. unfold ClockTimer.handleStartStop. now rewrite Hm, Hz.
Qed.

(** C6 on [timer.tsx]: in timer mode, stopped, with [timerSet = 0], the
    start button is not a no-op.  The timer starts running and the first
    tick ends the countdown and raises the flash flag. *)
Theorem C6_start_with_zero_target_runs_and_flashes :
  let stopped := Timer.run Timer.initialComponent [Timer.ModeButton] in
  let started := Timer.step stopped (Timer.StartStopButton 0) in
  let ticked := Timer.step started Timer.IntervalTick in
  (Timer.mode (Timer.st stopped) = Timer.timer
   /\ Timer.running (Timer.st stopped) = false
   /\ Timer.paused (Timer.st stopped) = false
   /\ Timer.timerSet (Timer.st stopped) = 0)
  /\ Timer.running (Timer.st started) = true
  /\ Timer.st started <> Timer.st stopped
  /\ Timer.flash (Timer.st ticked) = true.
Proof. vm_compute. repeat split; discriminate. Qed.

(** ** The hour, minute and second buttons *)

Lemma getMaxTime_timer (s : Timer.TimerState) :
  Timer.mode s = Timer.timer ->
  Timer.getMaxTime s = TIMER_CONSTANTS.TIMER_MAX.
Proof. intros H. unfold Timer.getMaxTime. now rewrite H. Qed.

(** With a handler that sees the current state the buttons of
    [timer.tsx] behave as the spec says. *)
Lemma incrementField_current_state (unit : Z) (s : Timer.TimerState) :
  Timer.mode s = Timer.timer ->
  (Timer.running s = true \/ TIMER_CONSTANTS.TIMER_MAX < Timer.timerSet s + unit ->
   Timer.incrementField unit s s = s)
  /\ (Timer.running s = false ->
      Timer.timerSet s + unit <= TIMER_CONSTANTS.TIMER_MAX ->
      Timer.incrementField unit s s =
      {| Timer.mode := Timer.mode s;
         Timer.displayFormat := Timer.displayFormat s;
         Timer.running := Timer.running s; Timer.paused := Timer.paused s;
         Timer.time := Timer.time s;
         Timer.timerSet := Timer.timerSet s + unit;
         Timer.flash := Timer.flash s;
         Timer.startTime := Timer.startTime s |}).
Proof.
  intros Hm. unfold Timer.incrementField.
  rewrite (getMaxTime_timer s Hm), Hm. split.
  - intros [Hr | Hb].
    + now rewrite Hr.
    + destruct (Timer.running s) eqn:Hr; [reflexivity |]. simpl.
      destruct (Z.leb_spec (Timer.timerSet s + unit)
                  TIMER_CONSTANTS.TIMER_MAX); [lia |].
      destruct s; simpl in *; subst; reflexivity.
  - intros Hr Hb. rewrite Hr. simpl.
    destruct (Z.leb_spec (Timer.timerSet s + unit)
                TIMER_CONSTANTS.TIMER_MAX); [reflexivity | lia].
Qed.

(** The updater of the clock revision reads the state it updates. *)
Lemma clock_incrementField (unit : Z) (s : ClockTimer.TimerState) :
  ClockTimer.mode s = ClockTimer.timer ->
  (ClockTimer.running s = true
   \/ TIMER_CONSTANTS.TIMER_MAX < ClockTimer.timerSet s + unit ->
   ClockTimer.incrementField unit s = s)
  /\ (ClockTimer.running s = false ->
      ClockTimer.timerSet s + unit <= TIMER_CONSTANTS.TIMER_MAX ->
      ClockTimer.timerSet (ClockTimer.incrementField unit s)
      = ClockTimer.timerSet s + unit).
Proof.
  intros Hm. unfold ClockTimer.incrementField. rewrite Hm. split.
  - intros [Hr | Hb].
    + now rewrite Hr.
    + destruct (ClockTimer.running s) eqn:Hr; [reflexivity |].
      destruct (Z.leb_spec (ClockTimer.timerSet s + unit)
                  TIMER_CONSTANTS.TIMER_MAX); [lia |].
      destruct s; simpl in *; subst; reflexivity.
  - intros Hr Hb. rewrite Hr. simpl.
    destruct (Z.leb_spec (ClockTimer.timerSet s + unit)
                TIMER_CONSTANTS.TIMER_MAX); [reflexivity | lia].
Qed.

(** C7 on [timer.tsx]: the handlers read [running] from the render in
    which the mode or the format last changed.  While the two-minute
    countdown runs, the seconds button still adds a second to [timerSet];
    and after a format toggle made while running, a stopped timer rejects
    the minute button although the sum is within bounds. *)
Theorem C7_field_button_reads_stale_running :
  (let c := Timer.run Timer.initialComponent (countdown_run 3) in
   let c' := Timer.step c (Timer.FieldButton Timer.SECONDS) in
   Timer.mode (Timer.st c) = Timer.timer
   /\ Timer.running (Timer.st c) = true
   /\ Timer.running (Timer.scene c) = false
   /\ Timer.timerSet (Timer.st c) = 120
   /\ Timer.timerSet (Timer.st c') = 121)
  /\
  (let d := Timer.run Timer.initialComponent
              [Timer.ModeButton; Timer.FieldButton Timer.MINUTES;
               Timer.StartStopButton 0; Timer.FormatButton;
               Timer.ResetButton] in
   let d' := Timer.step d (Timer.FieldButton Timer.MINUTES) in
   Timer.mode (Timer.st d) = Timer.timer
   /\ Timer.running (Timer.st d) = false
   /\ Timer.running (Timer.scene d) = true
   /\ Timer.timerSet (Timer.st d) = 60
   /\ Timer.timerSet (Timer.st d') = 60).
Proof. vm_compute. repeat split. Qed.

(** ** Sequences of ticks *)

Section Ticks.

Import Timer.

Lemma tick_mode (s : TimerState) : mode (tick s) = mode s.
Proof.
  unfold tick, timerTick, stopwatchTick.
  destruct (running s && negb (paused s)); [| reflexivity].
  destruct (mode s) eqn:Hm.
  - destruct (time s <=? 1); simpl; congruence.
  - destruct (getMaxTime s <=? time s); simpl; congruence.
Qed.

Lemma tick_displayFormat (s : TimerState) :
  displayFormat (tick s) = displayFormat s.
Proof.
  unfold tick, timerTick, stopwatchTick.
  destruct (running s && negb (paused s)); [| reflexivity].
  destruct (mode s).
  - destruct (time s <=? 1); reflexivity.
  - destruct (getMaxTime s <=? time s); reflexivity.
Qed.

Lemma tick_getMaxTime (s : TimerState) : getMaxTime (tick s) = getMaxTime s.
Proof.
  unfold getMaxTime. now rewrite tick_mode, tick_displayFormat.
Qed.

Lemma tick_timerSet (s : TimerState) : timerSet (tick s) = timerSet s.
Proof.
  unfold tick, timerTick, stopwatchTick.
  destruct (running s && negb (paused s)); [| reflexivity].
  destruct (mode s).
  - destruct (time s <=? 1); reflexivity.
  - destruct (getMaxTime s <=? time s); reflexivity.
Qed.

(** The effect only ever touches the stored time. *)
Lemma restore_keeps (s : TimerState) :
  mode (restoreTimerSet s) = mode s
  /\ displayFormat (restoreTimerSet s) = displayFormat s
  /\ timerSet (restoreTimerSet s) = timerSet s
  /\ running (restoreTimerSet s) = running s
  /\ paused (restoreTimerSet s) = paused s
  /\ flash (restoreTimerSet s) = flash s.
Proof.
  unfold restoreTimerSet.
  destruct (negb (running s) && negb (paused s)
            && TimerMode_eqb (mode s) timer); repeat split.
Qed.

Lemma restore_stopwatch (s : TimerState) :
  mode s = stopwatch -> restoreTimerSet s = s.
Proof.
  intros Hm. unfold restoreTimerSet. rewrite Hm.
  now rewrite Bool.andb_false_r.
Qed.

Lemma tickRender_keeps (s : TimerState) :
  mode (tickRender s) = mode s
  /\ displayFormat (tickRender s) = displayFormat s
  /\ timerSet (tickRender s) = timerSet s.
Proof.
  unfold tickRender.
  destruct (restore_keeps (tick s)) as (Hm & Hf & Hts & _).
  destruct (restoreDepsChanged s (tick s)).
  - rewrite Hm, Hf, Hts.
    now rewrite tick_mode, tick_displayFormat, tick_timerSet.
  - now rewrite tick_mode, tick_displayFormat, tick_timerSet.
Qed.

(** In stopwatch mode the render adds nothing to the updater. *)
Lemma tickRender_stopwatch (s : TimerState) :
  mode s = stopwatch -> tickRender s = tick s.
Proof.
  intros Hm. unfold tickRender.
  destruct (restoreDepsChanged s (tick s)); [| reflexivity].
  apply restore_stopwatch. now rewrite tick_mode.
Qed.

(** Without a running interval nothing happens. *)
Lemma tickRender_stopped (s : TimerState) :
  running s = false -> tickRender s = s.
Proof.
  intros Hr. unfold tickRender.
  assert (Ht : tick s = s) by (unfold tick; now rewrite Hr).
  rewrite Ht, restoreDepsChanged_same. reflexivity.
Qed.

(** A running timer with more than a second left loses one second. *)
Lemma tickRender_counting (s : TimerState) :
  mode s = timer -> running s = true -> paused s = false ->
  1 < time s ->
  tickRender s = set_time s (time s - 1).
Proof.
  intros Hm Hr Hp Ht.
  assert (Htick : tick s = set_time s (time s - 1)).
  { unfold tick, timerTick, set_time. rewrite Hr, Hp, Hm. simpl.
    destruct (Z.leb_spec (time s) 1); [lia | reflexivity]. }
  unfold tickRender. rewrite Htick.
  unfold restoreDepsChanged, set_time. simpl.
  rewrite Z.eqb_refl, !Bool.eqb_reflx.
  destruct (mode s); reflexivity.
Qed.

(** A running timer with at most a second left expires, and the render
    that follows stores [timerSet] again. *)
Lemma tickRender_expiring (s : TimerState) :
  mode s = timer -> running s = true -> paused s = false ->
  time s <= 1 ->
  time (tick s) = 0
  /\ tickRender s =
     {| mode := timer; displayFormat := displayFormat s;
        running := false; paused := false; time := timerSet s;
        timerSet := timerSet s; flash := true;
        startTime := startTime s |}.
Proof.
  intros Hm Hr Hp Ht.
  assert (Htick : tick s =
     {| mode := timer; displayFormat := displayFormat s;
        running := false; paused := false; time := 0;
        timerSet := timerSet s; flash := true;
        startTime := startTime s |}).
  { unfold tick, timerTick. rewrite Hr, Hp, Hm. simpl.
    destruct (Z.leb_spec (time s) 1); [reflexivity | lia]. }
  split; [now rewrite Htick |].
  unfold tickRender. rewrite Htick.
  unfold restoreDepsChanged, restoreTimerSet. simpl.
  rewrite Z.eqb_refl, Hr. reflexivity.
Qed.

Lemma ticks_mode (n : nat) : forall s, mode (ticks n s) = mode s.
Proof.
  induction n as [| n IH]; intros s; simpl; [reflexivity |].
  rewrite IH. apply tickRender_keeps.
Qed.

Lemma ticks_displayFormat (n : nat) :
  forall s, displayFormat (ticks n s) = displayFormat s.
Proof.
  induction n as [| n IH]; intros s; simpl; [reflexivity |].
  rewrite IH. apply tickRender_keeps.
Qed.

Lemma ticks_getMaxTime (n : nat) :
  forall s, getMaxTime (ticks n s) = getMaxTime s.
Proof.
  intros s. unfold getMaxTime. now rewrite ticks_mode, ticks_displayFormat.
Qed.

Lemma ticks_add (a b : nat) :
  forall s, ticks (a + b) s = ticks b (ticks a s).
Proof.
  induction a as [| a IH]; intros s; simpl; [reflexivity | apply IH].
Qed.

(** One stopwatch tick: the run flags stay, the time does not go down and
    does not pass the maximum unless it was above it already. *)
Lemma stopwatch_tick (s : TimerState) :
  mode s = stopwatch ->
  running (tick s) = running s
  /\ paused (tick s) = paused s
  /\ time s <= time (tick s)
  /\ time (tick s) <= Z.max (time s) (getMaxTime s).
Proof.
  intros Hm. unfold tick, stopwatchTick. rewrite Hm.
  destruct (running s && negb (paused s)).
  - destruct (Z.leb_spec (getMaxTime s) (time s)); simpl; repeat split; lia.
  - repeat split; lia.
Qed.

Lemma stopwatch_ticks (n : nat) :
  forall s, mode s = stopwatch ->
  running (ticks n s) = running s
  /\ paused (ticks n s) = paused s
  /\ time s <= time (ticks n s)
  /\ time (ticks n s) <= Z.max (time s) (getMaxTime s).
Proof.
  induction n as [| n IH]; intros s Hm; simpl.
  - repeat split; lia.
  - rewrite (tickRender_stopwatch s Hm).
    destruct (stopwatch_tick s Hm) as (Hr & Hp & Hlo & Hhi).
    assert (Hm' : mode (tick s) = stopwatch) by now rewrite tick_mode.
    destruct (IH (tick s) Hm') as (Hr' & Hp' & Hlo' & Hhi').
    rewrite tick_getMaxTime in Hhi'.
    repeat split; try congruence; lia.
Qed.

(** One timer tick never raises a non-negative stored time. *)
Lemma timer_tick (s : TimerState) :
  mode s = timer -> 0 <= time s ->
  0 <= time (tick s) <= time s.
Proof.
  intros Hm H0. unfold tick, timerTick. rewrite Hm.
  destruct (running s && negb (paused s)); [| lia].
  destruct (Z.leb_spec (time s) 1); simpl; lia.
Qed.

Lemma ticks_timerSet (n : nat) : forall s, timerSet (ticks n s) = timerSet s.
Proof.
  induction n as [| n IH]; intros s; simpl; [reflexivity |].
  rewrite IH. apply tickRender_keeps.
Qed.

Lemma ticks_stopped (n : nat) :
  forall s, running s = false -> ticks n s = s.
Proof.
  induction n as [| n IH]; intros s Hr; simpl; [reflexivity |].
  rewrite (tickRender_stopped s Hr). now apply IH.
Qed.

(** As long as the timer is still running after [n] ticks, each of them
    took exactly one second off. *)
Lemma ticks_while_running (n : nat) :
  forall s, mode s = timer -> running s = true -> paused s = false ->
  running (ticks n s) = true ->
  ticks n s = set_time s (time s - Z.of_nat n).
Proof.
  induction n as [| n IH]; intros s Hm Hr Hp Hrun.
  - simpl. rewrite Z.sub_0_r. destruct s; reflexivity.
  - simpl ticks in *.
    destruct (Z.leb_spec (time s) 1) as [Hlast | Hmore].
    + destruct (tickRender_expiring s Hm Hr Hp Hlast) as [_ He].
      rewrite He in Hrun. rewrite ticks_stopped in Hrun by reflexivity.
      discriminate Hrun.
    + rewrite (tickRender_counting s Hm Hr Hp Hmore) in *.
      rewrite IH; try assumption.
      unfold set_time. simpl. f_equal. lia.
Qed.

(** In timer mode the stored time never passes the larger of where it
    started and the target. *)
Lemma timer_ticks_bound (n : nat) :
  forall s, mode s = timer ->
  time (ticks n s) <= Z.max (time s) (timerSet s).
Proof.
  induction n as [| n IH]; intros s Hm; simpl; [lia |].
  assert (Hm' : mode (tickRender s) = timer)
    by (destruct (tickRender_keeps s) as (H & _); congruence).
  specialize (IH (tickRender s) Hm').
  destruct (tickRender_keeps s) as (_ & _ & Hts). rewrite Hts in IH.
  assert (Hstep : time (tickRender s) <= Z.max (time s) (timerSet s)).
  { destruct (running s) eqn:Hr;
      [| rewrite (tickRender_stopped s Hr); lia].
    destruct (paused s) eqn:Hp.
    - assert (Ht : tick s = s) by (unfold tick; now rewrite Hr, Hp).
      unfold tickRender. rewrite Ht, restoreDepsChanged_same. lia.
    - destruct (Z.leb_spec (time s) 1) as [Hlast | Hmore].
      + destruct (tickRender_expiring s Hm Hr Hp Hlast) as [_ ->].
        simpl. lia.
      + rewrite (tickRender_counting s Hm Hr Hp Hmore). simpl. lia. }
  lia.
Qed.

End Ticks.

Lemma getMaxTime_below_spec_maximum (s : Timer.TimerState) :
  Timer.getMaxTime s <= spec_maximum s.
Proof.
  unfold Timer.getMaxTime, spec_maximum.
  destruct (Timer.mode s), (Timer.displayFormat s); vm_compute; discriminate.
Qed.

Lemma ticks_spec_maximum (n : nat) (s : Timer.TimerState) :
  spec_maximum (Timer.ticks n s) = spec_maximum s.
Proof.
  unfold spec_maximum. now rewrite ticks_mode, ticks_displayFormat.
Qed.

(** The iterated tick is what the component stores after that many
    firings of the interval. *)
Lemma run_ticks (n : nat) :
  forall c : Timer.Component,
    Timer.st (Timer.run c (repeat Timer.IntervalTick n))
    = Timer.ticks n (Timer.st c).
Proof.
  induction n as [| n IH]; intros c; [reflexivity |].
  change (Timer.st (Timer.run (Timer.step c Timer.IntervalTick)
                      (repeat Timer.IntervalTick n))
          = Timer.ticks n (Timer.tickRender (Timer.st c))).
  rewrite IH. reflexivity.
Qed.

(** The [ms] bound of [TIMER_CONSTANTS] is 59:00.99, although its comment
    reads 59:59.99: a running [ms] stopwatch stops counting there. *)
Lemma STOPWATCH_MS_MAX_value :
  TIMER_CONSTANTS.STOPWATCH_MS_MAX = ms_value 59 0 99
  /\ TIMER_CONSTANTS.STOPWATCH_MS_MAX < ms_value 59 59 99
  /\ TIMER_CONSTANTS.STOPWATCH_HMS_MAX = hms_value 99 59 59
  /\ TIMER_CONSTANTS.TIMER_MAX = hms_value 99 59 59.
Proof. vm_compute. repeat split. Qed.

Lemma ms_stopwatch_stops_at_59_00_99 (s : Timer.TimerState) :
  Timer.mode s = Timer.stopwatch ->
  Timer.displayFormat s = Timer.ms ->
  Timer.time s = ms_value 59 0 99 ->
  Timer.tick s = s /\ Timer.formatTime s (Timer.time s) = "59:00.99"%string.
Proof.
  intros Hm Hf Ht. split.
  - unfold Timer.tick, Timer.stopwatchTick, Timer.getMaxTime.
    rewrite Hm, Hf, Ht.
    destruct (Timer.running s && negb (Timer.paused s)); reflexivity.
  - unfold Timer.formatTime. rewrite Hm, Hf, Ht. reflexivity.
Qed.

(** C9 (as amended).  [Timer.ticks n] is the state the component of
    [timer.tsx] stores after [n] firings of its tick interval, the render
    after each one included.  In stopwatch mode, over every sequence of
    ticks of a running stopwatch the stored time never goes down, the
    stopwatch keeps running, and a time that starts at or below the
    format's maximum (99:59:59 for [hms], 59:59.99 for [ms]) never
    exceeds it.  In timer mode the stored time is the remaining time: a
    tick of a running timer with more than one second left takes one
    second off; as long as the timer is still running after the ticks the
    stored time has not gone up (the consumed time, [timerSet] minus the
    stored time, has not gone down); the tick that finds at most one
    second left stops the timer, raises the flash and leaves the stored
    time at [timerSet] again; and the stored time stays at or below
    99:59:59 when it and [timerSet] start there. *)
Theorem C9_ticks_monotone_and_bounded :
  (forall (c : Timer.Component) (n : nat),
      Timer.st (Timer.run c (repeat Timer.IntervalTick n))
      = Timer.ticks n (Timer.st c))
  /\
  (forall s : Timer.TimerState,
      Timer.mode s = Timer.stopwatch ->
      Timer.running s = true -> Timer.paused s = false ->
      (forall n m : nat, (n <= m)%nat ->
         Timer.time (Timer.ticks n s) <= Timer.time (Timer.ticks m s))
      /\ (forall n : nat, Timer.running (Timer.ticks n s) = true)
      /\ (Timer.time s <= spec_maximum s ->
          forall n : nat,
            Timer.time (Timer.ticks n s) <= spec_maximum s))
  /\
  (forall s : Timer.TimerState,
      Timer.mode s = Timer.timer ->
      Timer.running s = true -> Timer.paused s = false ->
      (1 < Timer.time s ->
       Timer.time (Timer.ticks 1 s) = Timer.time s - 1)
      /\ (forall n m : nat, (n <= m)%nat ->
          Timer.running (Timer.ticks m s) = true ->
          Timer.time (Timer.ticks m s) <= Timer.time (Timer.ticks n s)
          /\ Timer.timerSet (Timer.ticks n s) - Timer.time (Timer.ticks n s)
             <= Timer.timerSet (Timer.ticks m s)
                - Timer.time (Timer.ticks m s))
      /\ (forall n : nat,
          Timer.running (Timer.ticks n s) = true ->
          Timer.time (Timer.ticks n s) <= 1 ->
          Timer.running (Timer.ticks (S n) s) = false
          /\ Timer.flash (Timer.ticks (S n) s) = true
          /\ Timer.time (Timer.ticks (S n) s) = Timer.timerSet s)
      /\ (Timer.time s <= spec_maximum s ->
          Timer.timerSet s <= spec_maximum s ->
          forall n : nat,
            Timer.time (Timer.ticks n s) <= spec_maximum s)).
Proof.
  split; [| split].
  - intros c n. apply run_ticks.
  - intros s Hm Hr Hp. split; [| split].
    + intros n m Hnm.
      replace m with (n + (m - n))%nat by lia.
      rewrite ticks_add.
      apply (stopwatch_ticks (m - n) (Timer.ticks n s)).
      now rewrite ticks_mode.
    + intros n. destruct (stopwatch_ticks n s Hm) as (H & _). congruence.
    + intros Hb n. destruct (stopwatch_ticks n s Hm) as (_ & _ & _ & H).
      pose proof (getMaxTime_below_spec_maximum s). lia.
  - intros s Hm Hr Hp. split; [| split; [| split]].
    + intros H1. simpl Timer.ticks.
      now rewrite (tickRender_counting s Hm Hr Hp H1).
    + intros n m Hnm Hrun.
      assert (Hn : Timer.running (Timer.ticks n s) = true).
      { destruct (Timer.running (Timer.ticks n s)) eqn:E; [reflexivity |].
        replace m with (n + (m - n))%nat in Hrun by lia.
        rewrite ticks_add, (ticks_stopped (m - n) _ E) in Hrun.
        congruence. }
      rewrite (ticks_while_running m s Hm Hr Hp Hrun).
      rewrite (ticks_while_running n s Hm Hr Hp Hn).
      unfold set_time. simpl. lia.
    + intros n Hrun Hlast.
      replace (S n) with (n + 1)%nat by lia.
      rewrite ticks_add.
      pose proof (ticks_while_running n s Hm Hr Hp Hrun) as Hn.
      assert (Hm' : Timer.mode (Timer.ticks n s) = Timer.timer)
        by now rewrite ticks_mode.
      assert (Hp' : Timer.paused (Timer.ticks n s) = false)
        by (rewrite Hn; exact Hp).
      destruct (tickRender_expiring (Timer.ticks n s) Hm' Hrun Hp' Hlast)
        as [_ He].
      simpl Timer.ticks. rewrite He. simpl.
      rewrite ticks_timerSet. repeat split.
    + intros Hb Hts n.
      pose proof (timer_ticks_bound n s Hm). lia.
Qed.

Lemma C9_ticks_monotone_and_bounded_witness :
  (Timer.mode running_stopwatch = Timer.stopwatch
   /\ Timer.running running_stopwatch = true
   /\ Timer.time (Timer.ticks 2 running_stopwatch)
      <= Timer.time (Timer.ticks 7 running_stopwatch)
   /\ Timer.time (Timer.ticks 7 running_stopwatch)
      <= hms_value 99 59 59)
  /\
  (Timer.mode running_timer = Timer.timer
   /\ Timer.running running_timer = true
   /\ Timer.time (Timer.ticks 1 running_timer) = Timer.time running_timer - 1
   /\ Timer.time (Timer.ticks 7 running_timer)
      <= Timer.time (Timer.ticks 2 running_timer)
   /\ Timer.time (Timer.ticks 119 running_timer) = 1
   /\ Timer.time (Timer.ticks 120 running_timer)
      = Timer.timerSet running_timer
   /\ Timer.time (Timer.ticks 130 running_timer) <= hms_value 99 59 59).
Proof.
  split.
  - destruct (proj1 (proj2 C9_ticks_monotone_and_bounded) running_stopwatch
                eq_refl eq_refl eq_refl) as (Hmono & _ & Hbound).
    assert (Hle : (2 <= 7)%nat) by lia.
    assert (Hb : Timer.time running_stopwatch
                 <= spec_maximum running_stopwatch)
      by (vm_compute; discriminate).
    split; [reflexivity | split; [reflexivity | split]].
    + exact (Hmono 2%nat 7%nat Hle).
    + exact (Hbound Hb 7%nat).
  - destruct (proj2 (proj2 C9_ticks_monotone_and_bounded) running_timer
                eq_refl eq_refl eq_refl) as (Hdown & Hmono & Hexp & Hbound).
    assert (Hle : (2 <= 7)%nat) by lia.
    assert (H1 : 1 < Timer.time running_timer) by (vm_compute; reflexivity).
    assert (Hrun7 : Timer.running (Timer.ticks 7 running_timer) = true)
      by (vm_compute; reflexivity).
    assert (Hrun119 : Timer.running (Timer.ticks 119 running_timer) = true)
      by (vm_compute; reflexivity).
    assert (Hlast : Timer.time (Timer.ticks 119 running_timer) <= 1)
      by (vm_compute; discriminate).
    assert (Hb : Timer.time running_timer <= spec_maximum running_timer)
      by (vm_compute; discriminate).
    assert (Hts : Timer.timerSet running_timer
                  <= spec_maximum running_timer)
      by (vm_compute; discriminate).
    split; [reflexivity | split; [reflexivity | split; [| split; [| split;
      [| split]]]]].
    + exact (Hdown H1).
    + exact (proj1 (Hmono 2%nat 7%nat Hle Hrun7)).
    + vm_compute. reflexivity.
    + exact (proj2 (proj2 (Hexp 119%nat Hrun119 Hlast))).
    + exact (Hbound Hb Hts 130%nat).
Defined.

(** On [timer.tsx], a tick of the running two-minute timer lowers the
    stored time from 120 to 119; and a stopwatch toggled from [hms] to
    [ms] after an hour stores 360000 centiseconds, above 59:59.99, and
    keeps that value over further ticks while running. *)
Lemma C9_counterexample :
  (Timer.mode running_timer = Timer.timer
   /\ Timer.running running_timer = true
   /\ Timer.time running_timer = 120
   /\ Timer.time (Timer.tick running_timer) = 119
   /\ Timer.time (Timer.ticks 1 running_timer) = 119
   /\ ~ Timer.time running_timer <= Timer.time (Timer.ticks 1 running_timer))
  /\
  (let s := Timer.st (Timer.run Timer.initialComponent
                        (stopwatch_run (Z.to_nat 3600)
                         ++ [Timer.FormatButton])) in
   Timer.running s = true
   /\ Timer.displayFormat s = Timer.ms
   /\ spec_maximum s = ms_value 59 59 99
   /\ Timer.time (Timer.ticks 3 s) = 360000
   /\ ~ Timer.time (Timer.ticks 3 s) <= spec_maximum s).
Proof.
  split.
  - repeat (split; [vm_compute; reflexivity |]).
    vm_compute. intros H. apply H. reflexivity.
  - repeat (split; [vm_compute; reflexivity |]).
    vm_compute. intros H. apply H. reflexivity.
Qed.

(** ** The captured render agrees with the state on what the scene effect
    depends on *)

Lemma restoreTimerSet_keeps_deps (s : Timer.TimerState) :
  Timer.mode (Timer.restoreTimerSet s) = Timer.mode s
  /\ Timer.displayFormat (Timer.restoreTimerSet s) = Timer.displayFormat s.
Proof.
  unfold Timer.restoreTimerSet.
  destruct (negb (Timer.running s) && negb (Timer.paused s)
            && Timer.TimerMode_eqb (Timer.mode s) Timer.timer);
    split; reflexivity.
Qed.

Lemma commit_coherent (c : Timer.Component) (next : Timer.TimerState)
    (entries : list Timer.LogEntry) :
  scene_coherent c -> scene_coherent (Timer.commit c next entries).
Proof.
  intros [Hm Hf]. unfold scene_coherent, Timer.commit. simpl.
  assert (Hst :
    forall b : bool,
      Timer.mode (if b then Timer.restoreTimerSet next else next)
      = Timer.mode next
      /\ Timer.displayFormat (if b then Timer.restoreTimerSet next else next)
         = Timer.displayFormat next).
  { intros [|]; [apply restoreTimerSet_keeps_deps | split; reflexivity]. }
  destruct (Hst (Timer.restoreDepsChanged (Timer.st c) next)) as [-> ->].
  unfold Timer.sceneDepsChanged.
  destruct (Timer.mode (Timer.st c)) eqn:E1, (Timer.mode next) eqn:E2,
    (Timer.displayFormat (Timer.st c)) eqn:E3,
    (Timer.displayFormat next) eqn:E4;
    simpl; split; congruence.
Qed.

Lemma reachable_coherent (c : Timer.Component) :
  Timer.reachable c -> scene_coherent c.
Proof.
  induction 1 as [| c e _ IH].
  - split; reflexivity.
  - destruct e; simpl; try (apply commit_coherent; exact IH).
    + destruct (Timer.handleLog now (Timer.st c) (Timer.logEntries c)).
      apply commit_coherent; exact IH.
    + destruct (Timer.flash (Timer.st c));
        [apply commit_coherent |]; exact IH.
Qed.

(** ** The log command of the clock revision without a session

    The updater of the clock revision clears the run of every stopwatch
    state, with or without an entry to log: a stopwatch that was started
    less than a second ago (stored time 0) is stopped by it. *)
Lemma clock_handleLog_without_session (now : Z) :
  let s := ClockTimer.handleStartStop 0 ClockTimer.initialState in
  ClockTimer.mode s = ClockTimer.stopwatch
  /\ ClockTimer.time s = 0
  /\ ClockTimer.running s = true
  /\ snd (ClockTimer.handleLog now s []) = []
  /\ ClockTimer.running (fst (ClockTimer.handleLog now s [])) = false
  /\ fst (ClockTimer.handleLog now s []) <> s.
Proof. vm_compute. repeat split; discriminate. Qed.

(** ** The stopwatch of the clock revision has no upper bound

    [stopwatchFrame] stores [pausedAccum] plus the elapsed units without
    comparing them with [getMaxTime]: a hundred hours after the start the
    [hms] stopwatch stores 360000 seconds. *)
Lemma clock_stopwatch_is_not_clamped :
  let s := ClockTimer.handleStartStop 0 ClockTimer.initialState in
  ClockTimer.mode s = ClockTimer.stopwatch
  /\ ClockTimer.getMaxTime s = 359999
  /\ ClockTimer.time (ClockTimer.stopwatchFrame 360000000 s) = 360000.
Proof. vm_compute. repeat split. Qed.

(** * Further properties of [timer.tsx] *)

(** ** Counting *)

Lemma set_time_same (s : Timer.TimerState) : set_time s (Timer.time s) = s.
Proof. destruct s; reflexivity. Qed.

Lemma set_time_twice (s : Timer.TimerState) (a b : Z) :
  set_time (set_time s a) b = set_time s b.
Proof. reflexivity. Qed.

Lemma tick_running_timer (s : Timer.TimerState) :
  Timer.mode s = Timer.timer ->
  Timer.running s = true -> Timer.paused s = false ->
  1 < Timer.time s ->
  Timer.tick s = set_time s (Timer.time s - 1).
Proof.
  intros Hm Hr Hp Ht. unfold Timer.tick, Timer.timerTick, set_time.
  rewrite Hr, Hp, Hm. simpl.
  destruct (Z.leb_spec (Timer.time s) 1); [lia | reflexivity].
Qed.

Lemma ticks_running_timer (n : nat) :
  forall s : Timer.TimerState,
    Timer.mode s = Timer.timer ->
    Timer.running s = true -> Timer.paused s = false ->
    Z.of_nat n < Timer.time s ->
    Timer.ticks n s = set_time s (Timer.time s - Z.of_nat n).
Proof.
  induction n as [| n IH]; intros s Hm Hr Hp Ht.
  - simpl. rewrite Z.sub_0_r. symmetry. apply set_time_same.
  - simpl Timer.ticks.
    rewrite (tickRender_counting s Hm Hr Hp) by lia.
    rewrite IH; simpl; try assumption; try lia.
    rewrite set_time_twice. f_equal. lia.
Qed.

(** X1.  A running countdown of [timer.tsx] that stores [T >= 1] seconds
    loses exactly one second per tick for the first [T - 1] ticks and
    expires on tick number [T]: the updater of that tick stores 0, stops
    the timer and raises the flash flag, and the render that follows puts
    the target back, so that after tick [T] the component stores
    [timerSet], stopped and flashing; later ticks change nothing. *)
Theorem countdown_expires_on_tick_T (s : Timer.TimerState) (T : nat) :
  Timer.mode s = Timer.timer ->
  Timer.running s = true -> Timer.paused s = false ->
  Timer.time s = Z.of_nat T -> (1 <= T)%nat ->
  (forall (c : Timer.Component) (n : nat),
     Timer.st c = s ->
     Timer.st (Timer.run c (repeat Timer.IntervalTick n)) = Timer.ticks n s)
  /\ (forall n : nat, (n < T)%nat ->
     Timer.ticks n s = set_time s (Z.of_nat T - Z.of_nat n))
  /\ Timer.tick (Timer.ticks (T - 1) s) =
     {| Timer.mode := Timer.timer;
        Timer.displayFormat := Timer.displayFormat s;
        Timer.running := false; Timer.paused := false; Timer.time := 0;
        Timer.timerSet := Timer.timerSet s; Timer.flash := true;
        Timer.startTime := Timer.startTime s |}
  /\ Timer.ticks T s =
     {| Timer.mode := Timer.timer;
        Timer.displayFormat := Timer.displayFormat s;
        Timer.running := false; Timer.paused := false;
        Timer.time := Timer.timerSet s;
        Timer.timerSet := Timer.timerSet s; Timer.flash := true;
        Timer.startTime := Timer.startTime s |}
  /\ (forall n : nat, (T <= n)%nat -> Timer.ticks n s = Timer.ticks T s).
Proof.
  intros Hm Hr Hp Ht HT.
  assert (Hbefore : forall n : nat, (n < T)%nat ->
            Timer.ticks n s = set_time s (Z.of_nat T - Z.of_nat n)).
  { intros n Hn. rewrite <- Ht.
    apply ticks_running_timer; try assumption. lia. }
  assert (Hlast : Timer.ticks (T - 1) s = set_time s 1).
  { rewrite (Hbefore (T - 1)%nat) by lia. f_equal. lia. }
  assert (Hupd : Timer.tick (Timer.ticks (T - 1) s) =
     {| Timer.mode := Timer.timer;
        Timer.displayFormat := Timer.displayFormat s;
        Timer.running := false; Timer.paused := false; Timer.time := 0;
        Timer.timerSet := Timer.timerSet s; Timer.flash := true;
        Timer.startTime := Timer.startTime s |}).
  { rewrite Hlast. unfold Timer.tick, Timer.timerTick, set_time. simpl.
    rewrite Hr, Hp, Hm. reflexivity. }
  assert (Hat : Timer.ticks T s =
     {| Timer.mode := Timer.timer;
        Timer.displayFormat := Timer.displayFormat s;
        Timer.running := false; Timer.paused := false;
        Timer.time := Timer.timerSet s;
        Timer.timerSet := Timer.timerSet s; Timer.flash := true;
        Timer.startTime := Timer.startTime s |}).
  { replace T with ((T - 1) + 1)%nat at 1 by lia.
    rewrite ticks_add, Hlast. simpl Timer.ticks.
    assert (H1 : Timer.time (set_time s 1) <= 1) by (simpl; lia).
    destruct (tickRender_expiring (set_time s 1) Hm Hr Hp H1) as [_ He].
    exact He. }
  split; [| split; [exact Hbefore | split; [exact Hupd | split;
    [exact Hat |]]]].
  - intros c n Hc. rewrite <- Hc. apply run_ticks.
  - intros n Hn. replace n with (T + (n - T))%nat by lia.
    rewrite ticks_add. apply ticks_stopped. now rewrite Hat.
Qed.

Lemma countdown_expires_on_tick_T_witness :
  Timer.time running_timer = 120
  /\ Timer.time (Timer.ticks 119 running_timer) = 1
  /\ Timer.time (Timer.tick (Timer.ticks 119 running_timer)) = 0
  /\ Timer.flash (Timer.ticks 120 running_timer) = true
  /\ Timer.time (Timer.ticks 120 running_timer) = 120
  /\ Timer.ticks 125 running_timer = Timer.ticks 120 running_timer.
Proof.
  assert (Ht : Timer.time running_timer = Z.of_nat 120) by reflexivity.
  assert (HT : (1 <= 120)%nat) by lia.
  destruct (countdown_expires_on_tick_T running_timer 120
              eq_refl eq_refl eq_refl Ht HT)
    as (_ & Hbefore & Hupd & Hat & Hafter).
  split; [exact Ht | split; [| split; [| split; [| split]]]].
  - rewrite (Hbefore 119%nat) by lia. reflexivity.
  - change 119%nat with (120 - 1)%nat. rewrite Hupd. reflexivity.
  - rewrite Hat. reflexivity.
  - rewrite Hat. reflexivity.
  - apply Hafter. lia.
Defined.

Lemma tick_running_stopwatch (s : Timer.TimerState) :
  Timer.mode s = Timer.stopwatch ->
  Timer.running s = true -> Timer.paused s = false ->
  Timer.tick s =
  set_time s (Z.min (Timer.time s + 1) (Z.max (Timer.time s) (Timer.getMaxTime s))).
Proof.
  intros Hm Hr Hp. unfold Timer.tick.
  rewrite Hr, Hp, Hm. cbn [andb negb]. unfold Timer.stopwatchTick.
  destruct (Z.leb_spec (Timer.getMaxTime s) (Timer.time s)).
  - replace (Z.min _ _) with (Timer.time s) by lia.
    symmetry. apply set_time_same.
  - unfold set_time. f_equal. lia.
Qed.

Lemma set_time_getMaxTime (s : Timer.TimerState) (t : Z) :
  Timer.getMaxTime (set_time s t) = Timer.getMaxTime s.
Proof. reflexivity. Qed.

Lemma ticks_running_stopwatch (n : nat) :
  forall s : Timer.TimerState,
    Timer.mode s = Timer.stopwatch ->
    Timer.running s = true -> Timer.paused s = false ->
    Timer.time s <= Timer.getMaxTime s ->
    Timer.ticks n s =
    set_time s (Z.min (Timer.time s + Z.of_nat n) (Timer.getMaxTime s)).
Proof.
  induction n as [| n IH]; intros s Hm Hr Hp Hb.
  - simpl. replace (Z.min _ _) with (Timer.time s) by lia.
    symmetry. apply set_time_same.
  - simpl Timer.ticks.
    rewrite (tickRender_stopwatch s Hm), (tick_running_stopwatch s Hm Hr Hp).
    rewrite IH; try assumption.
    + rewrite set_time_twice, set_time_getMaxTime. simpl Timer.time.
      f_equal. lia.
    + rewrite set_time_getMaxTime. simpl Timer.time. lia.
Qed.

(** X2.  A running stopwatch of [timer.tsx] whose stored time is at most
    the maximum of its format counts exactly one unit per tick until it
    reaches that maximum and stays there: after [n] ticks it stores
    [min (time + n) max], and nothing else in the state changes. *)
Theorem stopwatch_counts_and_saturates (n : nat) (s : Timer.TimerState) :
  Timer.mode s = Timer.stopwatch ->
  Timer.running s = true -> Timer.paused s = false ->
  Timer.time s <= Timer.getMaxTime s ->
  Timer.ticks n s =
  set_time s (Z.min (Timer.time s + Z.of_nat n) (Timer.getMaxTime s)).
Proof. apply ticks_running_stopwatch. Qed.

Lemma stopwatch_counts_and_saturates_witness :
  Timer.time running_stopwatch = 5
  /\ Timer.time (Timer.ticks 10 running_stopwatch) = 15
  /\ Timer.time (Timer.ticks (Z.to_nat 400000) running_stopwatch) = 359999.
Proof.
  assert (Hb : Timer.time running_stopwatch
               <= Timer.getMaxTime running_stopwatch)
    by (vm_compute; discriminate).
  split; [reflexivity | split].
  - rewrite (stopwatch_counts_and_saturates 10 running_stopwatch
               eq_refl eq_refl eq_refl Hb).
    reflexivity.
  - rewrite (stopwatch_counts_and_saturates (Z.to_nat 400000)
               running_stopwatch eq_refl eq_refl eq_refl Hb).
    vm_compute. reflexivity.
Defined.

(** X3.  The bound of the [ms] stopwatch is 59:00.99, not the 59:59.99 its
    comment announces: a running [ms] stopwatch at or below 59:00.99 never
    goes beyond it, and once enough ticks have passed it stores 354099
    centiseconds for good and shows "59:00.99". *)
Theorem ms_stopwatch_saturates_at_59_00_99 (s : Timer.TimerState) (n : nat) :
  Timer.mode s = Timer.stopwatch ->
  Timer.displayFormat s = Timer.ms ->
  Timer.running s = true -> Timer.paused s = false ->
  Timer.time s <= ms_value 59 0 99 ->
  Timer.time (Timer.ticks n s) <= ms_value 59 0 99
  /\ (ms_value 59 0 99 - Timer.time s <= Z.of_nat n ->
      Timer.time (Timer.ticks n s) = ms_value 59 0 99
      /\ Timer.formatTime (Timer.ticks n s) (Timer.time (Timer.ticks n s))
         = "59:00.99"%string).
Proof.
  intros Hm Hf Hr Hp Hb.
  assert (Hmax : Timer.getMaxTime s = ms_value 59 0 99).
  { unfold Timer.getMaxTime. rewrite Hm, Hf. reflexivity. }
  rewrite (ticks_running_stopwatch n s Hm Hr Hp) by (rewrite Hmax; exact Hb).
  rewrite Hmax. simpl Timer.time. split; [lia |].
  intros Hn. replace (Z.min _ _) with (ms_value 59 0 99) by lia.
  split; [reflexivity |].
  unfold Timer.formatTime, set_time. simpl Timer.mode.
  simpl Timer.displayFormat. rewrite Hm, Hf. reflexivity.
Qed.

Lemma ms_stopwatch_saturates_at_59_00_99_witness :
  Timer.displayFormat sixty_five_seconds_ms = Timer.ms
  /\ Timer.time sixty_five_seconds_ms = 6500
  /\ Timer.time (Timer.ticks (Z.to_nat 400000) sixty_five_seconds_ms)
     = 354099.
Proof.
  assert (Hm : Timer.mode sixty_five_seconds_ms = Timer.stopwatch)
    by (vm_compute; reflexivity).
  assert (Hf : Timer.displayFormat sixty_five_seconds_ms = Timer.ms)
    by (vm_compute; reflexivity).
  assert (Hr : Timer.running sixty_five_seconds_ms = true)
    by (vm_compute; reflexivity).
  assert (Hp : Timer.paused sixty_five_seconds_ms = false)
    by (vm_compute; reflexivity).
  assert (Ht : Timer.time sixty_five_seconds_ms = 6500)
    by (vm_compute; reflexivity).
  assert (Hb : Timer.time sixty_five_seconds_ms <= ms_value 59 0 99)
    by (rewrite Ht; vm_compute; discriminate).
  destruct (ms_stopwatch_saturates_at_59_00_99 sixty_five_seconds_ms
              (Z.to_nat 400000) Hm Hf Hr Hp Hb) as [_ Hsat].
  split; [exact Hf | split; [exact Ht |]].
  apply Hsat. rewrite Ht. vm_compute. discriminate.
Defined.

(** ** Pausing, resuming and logging *)

(** X4.  In [timer.tsx], pausing a running timer or stopwatch and resuming
    it gives back exactly the state it had: the stored time, the start
    time of the session and everything else are those from before the
    pause, whatever the two instants are. *)
Theorem pause_then_resume_restores (now1 now2 : Z) (s : Timer.TimerState) :
  Timer.running s = true -> Timer.paused s = false ->
  let held := Timer.handleStartStop now1 s in
  Timer.running held = false /\ Timer.paused held = true
  /\ Timer.time held = Timer.time s
  /\ Timer.tick held = held
  /\ Timer.handleStartStop now2 held = s.
Proof.
  intros Hr Hp held. unfold held, Timer.handleStartStop, Timer.tick.
  rewrite Hp, Hr. simpl.
  repeat split. destruct s; simpl in *; subst; reflexivity.
Qed.

Lemma pause_then_resume_restores_witness :
  Timer.running running_stopwatch = true
  /\ Timer.handleStartStop 9000
       (Timer.handleStartStop 5000 running_stopwatch)
     = running_stopwatch.
Proof.
  split; [reflexivity |].
  exact (proj2 (proj2 (proj2 (proj2
           (pause_then_resume_restores 5000 9000 running_stopwatch
              eq_refl eq_refl))))).
Defined.

(** X5.  In [timer.tsx] a second [handleLog] right after a first one does
    nothing: whether or not the first call logged an entry, the state and
    the list it left are a fixed point of [handleLog]. *)
Theorem log_twice_logs_once (now1 now2 : Z) (s : Timer.TimerState)
    (entries : list Timer.LogEntry) :
  let first := Timer.handleLog now1 s entries in
  Timer.handleLog now2 (fst first) (snd first) = first
  /\ (List.length (snd first) <= S (List.length entries))%nat.
Proof.
  unfold Timer.handleLog.
  destruct (Timer.mode s) eqn:Hm; simpl.
  - rewrite Hm. split; [reflexivity | lia].
  - destruct (Timer.startTime s) as [started |] eqn:Hs; simpl.
    + destruct (Z.ltb_spec 0 (Timer.time s)) as [Hpos | Hneg]; simpl.
      * split; [reflexivity | lia].
      * rewrite Hm, Hs.
        destruct (Z.ltb_spec 0 (Timer.time s)); [lia |].
        split; [reflexivity | lia].
    + rewrite Hm, Hs. split; [reflexivity | lia].
Qed.

(** ** What every run of the component keeps *)

Lemma run_invariant (P : Timer.Component -> Prop) (Q : Timer.Event -> Prop) :
  (forall c e, P c -> Q e -> P (Timer.step c e)) ->
  forall events c, P c -> Forall Q events -> P (Timer.run c events).
Proof.
  intros Hstep events. unfold Timer.run.
  induction events as [| e events IH]; intros c Hc Hq; simpl.
  - exact Hc.
  - inversion Hq; subst. apply IH; [apply Hstep |]; assumption.
Qed.





(** The state a commit stores is the next state, up to the stored time of
    a stopped timer. *)
Lemma commit_st (c : Timer.Component) (next : Timer.TimerState)
    (entries : list Timer.LogEntry) :
  Timer.st (Timer.commit c next entries) = next
  \/ (Timer.restoreDepsChanged (Timer.st c) next = true
      /\ Timer.st (Timer.commit c next entries) = Timer.restoreTimerSet next).
Proof.
  unfold Timer.commit. simpl.
  destruct (Timer.restoreDepsChanged (Timer.st c) next); auto.
Qed.










Ltac bounds_by_cases s :=
  unfold within_bounds, TIMER_CONSTANTS.TIMER_MAX,
    TIMER_CONSTANTS.STOPWATCH_HMS_MAX, TIMER_CONSTANTS.STOPWATCH_MS_MAX in *;
  destruct s as [m f r p t ts fl st]; simpl in *;
  destruct m, f; simpl in *; try lia.

Lemma within_bounds_restoreTimerSet (s : Timer.TimerState) :
  within_bounds s -> within_bounds (Timer.restoreTimerSet s).
Proof.
  unfold Timer.restoreTimerSet. intros H.
  destruct (negb (Timer.running s) && negb (Timer.paused s)
            && Timer.TimerMode_eqb (Timer.mode s) Timer.timer) eqn:Hc;
    [| exact H].
  apply Bool.andb_true_iff in Hc. destruct Hc as [_ Hm].
  bounds_by_cases s; discriminate.
Qed.

Lemma within_bounds_handleStartStop (now : Z) (s : Timer.TimerState) :
  within_bounds s -> within_bounds (Timer.handleStartStop now s).
Proof.
  unfold Timer.handleStartStop. intros H.
  destruct (Timer.paused s), (Timer.running s); bounds_by_cases s.
Qed.

Lemma within_bounds_handleModeSwitch (s : Timer.TimerState) :
  within_bounds s -> within_bounds (Timer.handleModeSwitch s).
Proof. unfold Timer.handleModeSwitch. intros H. bounds_by_cases s. Qed.

Lemma within_bounds_handleFormatToggle (s : Timer.TimerState) :
  within_bounds s -> within_bounds (Timer.handleFormatToggle s).
Proof.
  unfold Timer.handleFormatToggle, Js.floor_div. intros H.
  bounds_by_cases s.
  all: destruct H as (H1 & H2 & H3); repeat split; try lia.
  all: first [apply Z.div_pos; lia | apply Z.div_le_upper_bound; lia].
Qed.

Lemma within_bounds_handleReset (s : Timer.TimerState) :
  within_bounds s -> within_bounds (Timer.handleReset s).
Proof. unfold Timer.handleReset. intros H. bounds_by_cases s. Qed.

Lemma within_bounds_incrementField (unit : Z) (scene s : Timer.TimerState) :
  unit = Timer.HOURS \/ unit = Timer.MINUTES \/ unit = Timer.SECONDS ->
  Timer.mode scene = Timer.mode s ->
  within_bounds s -> within_bounds (Timer.incrementField unit scene s).
Proof.
  unfold Timer.incrementField, Timer.HOURS, Timer.MINUTES, Timer.SECONDS.
  intros Hu Hm H.
  destruct (negb (Timer.running scene)
            && Timer.TimerMode_eqb (Timer.mode scene) Timer.timer) eqn:Hg;
    [| exact H].
  apply Bool.andb_true_iff in Hg. destruct Hg as [_ Hg].
  assert (Hscene : Timer.mode scene = Timer.timer)
    by (destruct (Timer.mode scene); [reflexivity | discriminate]).
  unfold Timer.getMaxTime. rewrite Hscene. rewrite Hscene in Hm.
  destruct (Z.leb_spec (Timer.timerSet s + unit) TIMER_CONSTANTS.TIMER_MAX);
    bounds_by_cases s; discriminate.
Qed.

Lemma within_bounds_handleLog (now : Z) (s : Timer.TimerState)
    (entries : list Timer.LogEntry) :
  within_bounds s -> within_bounds (fst (Timer.handleLog now s entries)).
Proof.
  unfold Timer.handleLog. intros H.
  destruct (Timer.mode s) eqn:Hm; [exact H |].
  destruct (Timer.startTime s); [| exact H].
  destruct (0 <? Timer.time s); [| exact H].
  simpl. bounds_by_cases s; discriminate.
Qed.

Lemma within_bounds_tick (s : Timer.TimerState) :
  within_bounds s -> within_bounds (Timer.tick s).
Proof.
  unfold Timer.tick, Timer.timerTick, Timer.stopwatchTick, Timer.getMaxTime.
  intros H.
  destruct (Timer.running s && negb (Timer.paused s)); [| exact H].
  destruct (Timer.mode s) eqn:Hm.
  - destruct (Z.leb_spec (Timer.time s) 1);
      bounds_by_cases s; discriminate.
  - destruct (Timer.displayFormat s) eqn:Hf.
    + destruct (Z.leb_spec TIMER_CONSTANTS.STOPWATCH_HMS_MAX (Timer.time s));
        [exact H |]. bounds_by_cases s; discriminate.
    + destruct (Z.leb_spec TIMER_CONSTANTS.STOPWATCH_MS_MAX (Timer.time s));
        [exact H |]. bounds_by_cases s; discriminate.
Qed.

Lemma within_bounds_commit (c : Timer.Component) (next : Timer.TimerState)
    (entries : list Timer.LogEntry) :
  within_bounds next ->
  within_bounds (Timer.st (Timer.commit c next entries)).
Proof.
  intros H. destruct (commit_st c next entries) as [-> | [_ ->]];
    [exact H | now apply within_bounds_restoreTimerSet].
Qed.

Lemma step_within_bounds (c : Timer.Component) (e : Timer.Event) :
  scene_coherent c /\ within_bounds (Timer.st c) ->
  button_event e ->
  scene_coherent (Timer.step c e)
  /\ within_bounds (Timer.st (Timer.step c e)).
Proof.
  intros [Hc Hb] He.
  split.
  - destruct e; unfold Timer.step; try (apply commit_coherent; exact Hc).
    + destruct (Timer.handleLog now (Timer.st c) (Timer.logEntries c)).
      apply commit_coherent; exact Hc.
    + destruct (Timer.flash (Timer.st c));
        [apply commit_coherent |]; exact Hc.
  - destruct e; unfold Timer.step.
    + apply within_bounds_commit. now apply within_bounds_handleStartStop.
    + apply within_bounds_commit. now apply within_bounds_handleModeSwitch.
    + apply within_bounds_commit.
      now apply within_bounds_handleFormatToggle.
    + apply within_bounds_commit. now apply within_bounds_handleReset.
    + apply within_bounds_commit.
      apply within_bounds_incrementField; [exact He | apply Hc | exact Hb].
    + pose proof (within_bounds_handleLog now (Timer.st c)
                    (Timer.logEntries c) Hb) as Hl.
      destruct (Timer.handleLog now (Timer.st c) (Timer.logEntries c)).
      apply within_bounds_commit. exact Hl.
    + apply within_bounds_commit. now apply within_bounds_tick.
    + destruct (Timer.flash (Timer.st c)); [| exact Hb].
      apply within_bounds_commit. bounds_by_cases (Timer.st c).
    + apply within_bounds_commit. bounds_by_cases (Timer.st c).
Qed.

(** X7.  Along every sequence of events of [timer.tsx] whose field buttons
    add 3600, 60 or 1, the target stays between 0 and 99:59:59 and the
    stored time is never negative; it is at most the target in timer
    mode, at most 99:59:59 in the [hms] stopwatch and at most a hundred
    times that in the [ms] stopwatch. *)
Theorem run_stays_within_bounds (events : list Timer.Event) :
  Forall button_event events ->
  within_bounds (Timer.st (Timer.run Timer.initialComponent events)).
Proof.
  intros He.
  apply (run_invariant
           (fun c => scene_coherent c /\ within_bounds (Timer.st c))
           button_event); try assumption.
  - apply step_within_bounds.
  - split; [split; reflexivity |].
    unfold within_bounds. vm_compute. repeat split; discriminate.
Qed.

Lemma run_stays_within_bounds_witness :
  Forall button_event (countdown_run 3)
  /\ 0 <= Timer.timerSet
            (Timer.st (Timer.run Timer.initialComponent (countdown_run 3)))
     <= 359999.
Proof.
  assert (He : Forall button_event (countdown_run 3)).
  { unfold countdown_run. simpl.
    repeat (apply Forall_cons; [simpl; auto |]). apply Forall_nil. }
  split; [exact He |].
  exact (proj1 (run_stays_within_bounds (countdown_run 3) He)).
Defined.

(** * The display of [timer.tsx] *)

Lemma two_digits_table :
  forallb
    (fun i : nat =>
       match Timer.two_digits (Z.of_nat i) with
       | String a (String b EmptyString) =>
           match pair_value a b with
           | Some v => v =? Z.of_nat i
           | None => false
           end
       | _ => false
       end)
    (seq 0 100) = true.
Proof. vm_compute. reflexivity. Qed.

(** Below 100, [two_digits] gives exactly two decimal digits that read
    back as the number. *)
Lemma two_digits_read (n : Z) :
  0 <= n < 100 ->
  exists a b : ascii,
    Timer.two_digits n = String a (String b EmptyString)
    /\ pair_value a b = Some n.
Proof.
  intros Hn.
  pose proof (proj1 (forallb_forall _ _) two_digits_table (Z.to_nat n)) as H.
  assert (Hin : In (Z.to_nat n) (seq 0 100)) by (apply in_seq; lia).
  specialize (H Hin). cbv beta in H. rewrite Z2Nat.id in H by lia.
  destruct (Timer.two_digits n) as [| a [| b [| ? ?]]]; try discriminate.
  exists a, b. split; [reflexivity |].
  destruct (pair_value a b) as [v |]; [| discriminate].
  apply Z.eqb_eq in H. now subst.
Qed.

Lemma formatTime_hms_form (s : Timer.TimerState) (t : Z) :
  Timer.mode s = Timer.timer \/ Timer.displayFormat s = Timer.hms ->
  Timer.formatTime s t =
  (Timer.two_digits (Z.max 0 t / 3600) ++ ":"
   ++ Timer.two_digits ((Z.max 0 t) mod 3600 / 60) ++ ":"
   ++ Timer.two_digits ((Z.max 0 t) mod 60))%string.
Proof.
  unfold Timer.formatTime, Js.floor_div.
  intros [Hm | Hf].
  - now rewrite Hm.
  - rewrite Hf. destruct (Timer.mode s); reflexivity.
Qed.

Lemma read_hms_formatTime (s : Timer.TimerState) (t : Z) :
  Timer.mode s = Timer.timer \/ Timer.displayFormat s = Timer.hms ->
  0 <= t <= hms_value 99 59 59 ->
  read_hms (Timer.formatTime s t) = Some t
  /\ String.length (Timer.formatTime s t) = 8%nat.
Proof.
  intros Hs Ht. unfold hms_value in Ht.
  rewrite (formatTime_hms_form s t Hs).
  rewrite Z.max_r by lia.
  assert (Hh : 0 <= t / 3600 < 100).
  { split; [apply Z.div_pos; lia | apply Z.div_lt_upper_bound; lia]. }
  pose proof (Z.mod_pos_bound t 3600 eq_refl) as H3600.
  assert (Hm : 0 <= t mod 3600 / 60 < 100).
  { split; [apply Z.div_pos; lia | apply Z.div_lt_upper_bound; lia]. }
  assert (Hsec : 0 <= t mod 60 < 100).
  { pose proof (Z.mod_pos_bound t 60 eq_refl). lia. }
  destruct (two_digits_read _ Hh) as (h1 & h2 & -> & Eh).
  destruct (two_digits_read _ Hm) as (m1 & m2 & -> & Em).
  destruct (two_digits_read _ Hsec) as (s1 & s2 & -> & Es).
  simpl. rewrite Eh, Em, Es. split; [| reflexivity].
  f_equal.
  pose proof (Z.div_mod t 3600 ltac:(discriminate)) as D1.
  pose proof (Z.div_mod (t mod 3600) 60 ltac:(discriminate)) as D2.
  assert (D3 : (t mod 3600) mod 60 = t mod 60).
  { apply (Z.mod_unique t 60 (60 * (t / 3600) + t mod 3600 / 60));
      [left|]; pose proof (Z.mod_pos_bound (t mod 3600) 60 eq_refl); lia. }
  lia.
Qed.

(** X8.  On a timer or an [hms] stopwatch of [timer.tsx], every time from
    0 to 99:59:59 is displayed by eight characters that determine it (two
    different times never look alike), and a time at or below 0 is
    displayed as "00:00:00". *)
Theorem hms_display_is_unambiguous (s : Timer.TimerState) :
  Timer.mode s = Timer.timer \/ Timer.displayFormat s = Timer.hms ->
  (forall t : Z, 0 <= t <= hms_value 99 59 59 ->
     String.length (Timer.formatTime s t) = 8%nat)
  /\ (forall t1 t2 : Z,
        0 <= t1 <= hms_value 99 59 59 -> 0 <= t2 <= hms_value 99 59 59 ->
        Timer.formatTime s t1 = Timer.formatTime s t2 -> t1 = t2)
  /\ (forall t : Z, t <= 0 -> Timer.formatTime s t = "00:00:00"%string).
Proof.
  intros Hs. split; [| split].
  - intros t Ht. apply (read_hms_formatTime s t Hs Ht).
  - intros t1 t2 H1 H2 Heq.
    pose proof (proj1 (read_hms_formatTime s t1 Hs H1)) as R1.
    pose proof (proj1 (read_hms_formatTime s t2 Hs H2)) as R2.
    rewrite Heq in R1. congruence.
  - intros t Ht. rewrite (formatTime_hms_form s t Hs).
    rewrite Z.max_l by lia. reflexivity.
Qed.

Lemma hms_display_is_unambiguous_witness :
  Timer.formatTime running_timer 119 <> Timer.formatTime running_timer 120
  /\ Timer.formatTime running_timer (-5) = "00:00:00"%string.
Proof.
  destruct (hms_display_is_unambiguous running_timer (or_introl eq_refl))
    as (_ & Hinj & Hneg).
  split.
  - intros Heq.
    assert (H : 119 = 120).
    { apply Hinj; [unfold hms_value; lia | unfold hms_value; lia | exact Heq]. }
    discriminate H.
  - apply Hneg. lia.
Defined.

Lemma formatTime_ms_form (s : Timer.TimerState) (t : Z) :
  Timer.mode s = Timer.stopwatch -> Timer.displayFormat s = Timer.ms ->
  Timer.formatTime s t =
  (Timer.two_digits (Z.max 0 t / 100 / 60) ++ ":"
   ++ Timer.two_digits ((Z.max 0 t / 100) mod 60) ++ "."
   ++ Timer.two_digits ((Z.max 0 t) mod 100))%string.
Proof.
  unfold Timer.formatTime, Js.floor_div. intros Hm Hf.
  now rewrite Hm, Hf.
Qed.

Lemma read_ms_formatTime (s : Timer.TimerState) (t : Z) :
  Timer.mode s = Timer.stopwatch -> Timer.displayFormat s = Timer.ms ->
  0 <= t <= ms_value 59 59 99 ->
  read_ms (Timer.formatTime s t) = Some t
  /\ String.length (Timer.formatTime s t) = 8%nat.
Proof.
  intros Hmode Hf Ht. unfold ms_value in Ht.
  rewrite (formatTime_ms_form s t Hmode Hf).
  rewrite Z.max_r by lia.
  assert (Hsecs : 0 <= t / 100 < 3600).
  { split; [apply Z.div_pos; lia | apply Z.div_lt_upper_bound; lia]. }
  assert (Hm : 0 <= t / 100 / 60 < 100).
  { split; [apply Z.div_pos; lia | apply Z.div_lt_upper_bound; lia]. }
  assert (Hsec : 0 <= (t / 100) mod 60 < 100).
  { pose proof (Z.mod_pos_bound (t / 100) 60 eq_refl). lia. }
  assert (Hcs : 0 <= t mod 100 < 100) by (apply Z.mod_pos_bound; lia).
  destruct (two_digits_read _ Hm) as (m1 & m2 & -> & Em).
  destruct (two_digits_read _ Hsec) as (s1 & s2 & -> & Es).
  destruct (two_digits_read _ Hcs) as (c1 & c2 & -> & Ec).
  simpl. rewrite Em, Es, Ec. split; [| reflexivity].
  f_equal.
  pose proof (Z.div_mod t 100 ltac:(discriminate)) as D1.
  pose proof (Z.div_mod (t / 100) 60 ltac:(discriminate)) as D2.
  lia.
Qed.

(** X9.  On an [ms] stopwatch of [timer.tsx], every time from 0 to
    59:59.99 (in centiseconds) is displayed by eight characters that
    determine it, and a time at or below 0 is displayed as "00:00.00". *)
Theorem ms_display_is_unambiguous (s : Timer.TimerState) :
  Timer.mode s = Timer.stopwatch -> Timer.displayFormat s = Timer.ms ->
  (forall t : Z, 0 <= t <= ms_value 59 59 99 ->
     String.length (Timer.formatTime s t) = 8%nat)
  /\ (forall t1 t2 : Z,
        0 <= t1 <= ms_value 59 59 99 -> 0 <= t2 <= ms_value 59 59 99 ->
        Timer.formatTime s t1 = Timer.formatTime s t2 -> t1 = t2)
  /\ (forall t : Z, t <= 0 -> Timer.formatTime s t = "00:00.00"%string).
Proof.
  intros Hm Hf. split; [| split].
  - intros t Ht. apply (read_ms_formatTime s t Hm Hf Ht).
  - intros t1 t2 H1 H2 Heq.
    pose proof (proj1 (read_ms_formatTime s t1 Hm Hf H1)) as R1.
    pose proof (proj1 (read_ms_formatTime s t2 Hm Hf H2)) as R2.
    rewrite Heq in R1. congruence.
  - intros t Ht. rewrite (formatTime_ms_form s t Hm Hf).
    rewrite Z.max_l by lia. reflexivity.
Qed.

Lemma ms_display_is_unambiguous_witness :
  Timer.displayFormat paused_at_1234 = Timer.ms
  /\ String.length (Timer.formatTime paused_at_1234 1234) = 8%nat
  /\ Timer.formatTime paused_at_1234 (-1) = "00:00.00"%string.
Proof.
  assert (Hm : Timer.mode paused_at_1234 = Timer.stopwatch)
    by (vm_compute; reflexivity).
  assert (Hf : Timer.displayFormat paused_at_1234 = Timer.ms)
    by (vm_compute; reflexivity).
  destruct (ms_display_is_unambiguous paused_at_1234 Hm Hf)
    as (Hlen & _ & Hneg).
  split; [exact Hf | split].
  - apply Hlen. unfold ms_value. lia.
  - apply Hneg. lia.
Defined.

(** * The session list and the statistics *)

Lemma sum_from (A : Type) (f : A -> Z) (l : list A) :
  forall a : Z,
    fold_left (fun acc x => acc + f x) l a
    = a + fold_left (fun acc x => acc + f x) l 0.
Proof.
  induction l as [| x l IH]; intros a; simpl; [lia |].
  rewrite (IH (a + f x)), (IH (f x)). lia.
Qed.

(** X10.  [removeSession] keeps exactly the entries whose id differs from
    the given one, in their order; when no entry has that id the list is
    unchanged, and removing twice is the same as removing once. *)
Theorem removeSession_keeps_the_others (id : string)
    (sessions : list SessionContext.LogEntry) :
  (forall e, In e (SessionContext.removeSession id sessions)
             <-> In e sessions /\ ClockTimer.entry_id e <> id)
  /\ ((forall e, In e sessions -> ClockTimer.entry_id e <> id) ->
      SessionContext.removeSession id sessions = sessions)
  /\ SessionContext.removeSession id
       (SessionContext.removeSession id sessions)
     = SessionContext.removeSession id sessions.
Proof.
  unfold SessionContext.removeSession. split; [| split].
  - intros e. rewrite filter_In. split; intros [Hin Hid]; split; auto.
    + intros Heq. apply String.eqb_eq in Heq. now rewrite Heq in Hid.
    + destruct (String.eqb_spec (ClockTimer.entry_id e) id);
        [contradiction | reflexivity].
  - intros Habsent. induction sessions as [| x l IH]; simpl; [reflexivity |].
    destruct (String.eqb_spec (ClockTimer.entry_id x) id) as [Heq | Hne].
    + exfalso. apply (Habsent x); [now left | exact Heq].
    + simpl. rewrite IH; [reflexivity |].
      intros e He. apply Habsent. now right.
  - induction sessions as [| x l IH]; simpl; [reflexivity |].
    destruct (String.eqb_spec (ClockTimer.entry_id x) id) as [Heq | Hne];
      simpl; [exact IH |].
    destruct (String.eqb_spec (ClockTimer.entry_id x) id);
      [contradiction |]. simpl. now rewrite IH.
Qed.

Lemma removeSession_keeps_the_others_witness :
  SessionContext.removeSession "7"
    (snd (ClockTimer.handleLog 65000
            (ClockTimer.stopwatchFrame 65000
               (ClockTimer.handleStartStop 0 ClockTimer.initialState)) []))
  = snd (ClockTimer.handleLog 65000
           (ClockTimer.stopwatchFrame 65000
              (ClockTimer.handleStartStop 0 ClockTimer.initialState)) []).
Proof.
  apply (proj1 (proj2 (removeSession_keeps_the_others "7" _))).
  intros e [He | []]. subst e. vm_compute. discriminate.
Defined.

(** X11.  [removeSession] deletes every entry that carries the id, not
    just one: two entries logged with the same [Date.now()] stamp go
    together.  When the ids of the list are pairwise different, at most
    one entry is deleted. *)
Theorem removeSession_deletes_all_with_id (id : string)
    (sessions : list SessionContext.LogEntry) :
  (List.length (SessionContext.removeSession id sessions)
   + List.length
       (filter (fun s => String.eqb (ClockTimer.entry_id s) id) sessions)
   = List.length sessions)%nat
  /\ (forall e1 e2 : SessionContext.LogEntry,
        ClockTimer.entry_id e1 = id -> ClockTimer.entry_id e2 = id ->
        SessionContext.removeSession id
          (ClockTimer.addSession e2 (ClockTimer.addSession e1 sessions))
        = SessionContext.removeSession id sessions)
  /\ (NoDup (map ClockTimer.entry_id sessions) ->
      (List.length sessions
       <= S (List.length (SessionContext.removeSession id sessions)))%nat).
Proof.
  unfold SessionContext.removeSession, ClockTimer.addSession.
  split; [| split].
  - induction sessions as [| x l IH]; simpl; [reflexivity |].
    destruct (String.eqb (ClockTimer.entry_id x) id); simpl; lia.
  - intros e1 e2 H1 H2. simpl. rewrite H1, H2, String.eqb_refl. reflexivity.
  - induction sessions as [| x l IH]; simpl; intros Hnd; [lia |].
    inversion Hnd as [| ? ? Hnotin Hnd']; subst.
    destruct (String.eqb_spec (ClockTimer.entry_id x) id) as [Heq | Hne];
      simpl.
    + assert (Hsame :
        filter (fun s => negb (String.eqb (ClockTimer.entry_id s) id)) l = l).
      { clear IH Hnd Hnd'. induction l as [| y l IHl]; simpl;
          [reflexivity |].
        destruct (String.eqb_spec (ClockTimer.entry_id y) id) as [Hy | Hy].
        - exfalso. apply Hnotin. simpl. left. congruence.
        - simpl. rewrite IHl; [reflexivity |].
          intros Hin. apply Hnotin. simpl. now right. }
      rewrite Hsame. lia.
    + specialize (IH Hnd'). lia.
Qed.

Lemma removeSession_deletes_all_with_id_witness :
  let e := {| ClockTimer.entry_id := "65000";
              ClockTimer.entry_startTime := 0;
              ClockTimer.duration := 65;
              ClockTimer.formattedDuration := "00:01:05" |} in
  SessionContext.removeSession "65000"
    (ClockTimer.addSession e (ClockTimer.addSession e [])) = []
  /\ (List.length [e]
      <= S (List.length (SessionContext.removeSession "65000" [e])))%nat.
Proof.
  intros e. split.
  - exact (proj1 (proj2 (removeSession_deletes_all_with_id "65000" []))
             e e eq_refl eq_refl).
  - apply (proj2 (proj2 (removeSession_deletes_all_with_id "65000" [e]))).
    repeat constructor. simpl. tauto.
Defined.

Lemma totalDuration_cons (x : SessionContext.LogEntry)
    (l : list SessionContext.LogEntry) :
  SessionContext.totalDuration (x :: l)
  = ClockTimer.duration x + SessionContext.totalDuration l.
Proof.
  unfold SessionContext.totalDuration. simpl. apply sum_from.
Qed.

(** X12.  The total of the history page is additive: a new session adds
    its duration, an emptied list totals 0, and the total splits into the
    part [removeSession] keeps and the part it deletes. *)
Theorem totalDuration_is_additive (id : string)
    (session : SessionContext.LogEntry)
    (sessions : list SessionContext.LogEntry) :
  SessionContext.totalDuration (ClockTimer.addSession session sessions)
  = ClockTimer.duration session + SessionContext.totalDuration sessions
  /\ SessionContext.totalDuration (SessionContext.clearSessions sessions) = 0
  /\ SessionContext.totalDuration sessions
     = SessionContext.totalDuration
         (SessionContext.removeSession id sessions)
       + SessionContext.totalDuration
           (filter (fun s => String.eqb (ClockTimer.entry_id s) id)
              sessions).
Proof.
  split; [| split].
  - apply totalDuration_cons.
  - reflexivity.
  - unfold SessionContext.removeSession.
    induction sessions as [| x l IH]; [reflexivity |].
    rewrite totalDuration_cons. simpl filter.
    destruct (String.eqb (ClockTimer.entry_id x) id); simpl negb; cbv iota;
      rewrite totalDuration_cons; lia.
Qed.

Lemma includes_append (c : ascii) (a b : string) :
  Stats.includes c (a ++ b) = Stats.includes c a || Stats.includes c b.
Proof.
  induction a as [| x a IH]; simpl; [reflexivity |].
  rewrite IH. apply Bool.orb_assoc.
Qed.

Lemma includes_cons (c a : ascii) (rest : string) :
  Stats.includes c (String a rest)
  = Ascii.eqb a c || Stats.includes c rest.
Proof. reflexivity. Qed.

(** The letters the statistics page looks for. *)
Lemma letter_cases (c : ascii) :
  c = "M"%char \/ c = "S"%char \/ c = "H"%char ->
  forall d : Decimal.uint,
    Stats.includes c (NilEmpty.string_of_uint d) = false.
Proof.
  intros Hc d. induction d; simpl; try rewrite IHd;
    destruct Hc as [-> | [-> | ->]]; reflexivity.
Qed.

Lemma toString_has_no_letter (c : ascii) (n : Z) :
  c = "M"%char \/ c = "S"%char \/ c = "H"%char ->
  Stats.includes c (Js.toString n) = false.
Proof.
  intros Hc. unfold Js.toString, NilZero.string_of_int.
  destruct (Z.to_int n) as [d | d]; unfold NilZero.string_of_uint.
  - destruct d; try apply (letter_cases c Hc).
    destruct Hc as [-> | [-> | ->]]; reflexivity.
  - assert (Hminus : Stats.includes c "-" = false)
      by (destruct Hc as [-> | [-> | ->]]; reflexivity).
    change (Stats.includes c
              ("-" ++ match d with
                      | Decimal.Nil => "0"
                      | _ => NilEmpty.string_of_uint d
                      end) = false)%string.
    rewrite includes_append, Hminus. simpl.
    destruct d; try apply (letter_cases c Hc).
    destruct Hc as [-> | [-> | ->]]; reflexivity.
Qed.

Lemma two_digits_has_no_letter (c : ascii) (n : Z) :
  c = "M"%char \/ c = "S"%char \/ c = "H"%char ->
  Stats.includes c (ClockTimer.two_digits n) = false.
Proof.
  intros Hc. unfold ClockTimer.two_digits, Js.padStart.
  rewrite includes_append, (toString_has_no_letter c n Hc).
  rewrite Bool.orb_false_r.
  induction (2 - String.length (Js.toString n))%nat as [| k IH]; simpl;
    [reflexivity |].
  rewrite IH. destruct Hc as [-> | [-> | ->]]; reflexivity.
Qed.

Lemma formatTimeForLog_has_no_letter (c : ascii) (t : Z)
    (f : ClockTimer.DisplayFormat) :
  c = "M"%char \/ c = "S"%char \/ c = "H"%char ->
  Stats.includes c (ClockTimer.formatTimeForLog t f) = false.
Proof.
  intros Hc. unfold ClockTimer.formatTimeForLog.
  assert (Hcolon : Stats.includes c ":" = false)
    by (destruct Hc as [-> | [-> | ->]]; reflexivity).
  destruct f; repeat rewrite includes_append;
    repeat rewrite (two_digits_has_no_letter c _ Hc);
    rewrite Hcolon; reflexivity.
Qed.

(** X13.  The statistics page divides a duration by 100 only when the
    entry's text contains "M" and "S" but no "H", which is the display
    text of the [ms] stopwatch.  The log command stores the text of
    [formatTimeForLog], which never contains these letters: every logged
    session enters [totalTime] with its stored duration, an [ms] session
    in centiseconds. *)
Theorem stats_never_convert_logged_sessions :
  (forall (now started : Z) (s : ClockTimer.TimerState)
          (sessions : list SessionContext.LogEntry),
      ClockTimer.mode s = ClockTimer.stopwatch ->
      ClockTimer.startTime s = Some started ->
      0 < ClockTimer.time s ->
      Stats.totalTime (snd (ClockTimer.handleLog now s sessions))
      = ClockTimer.time s + Stats.totalTime sessions)
  /\
  (forall (clockText id : string) (started d t : Z)
          (s : ClockTimer.TimerState),
      ClockTimer.mode s = ClockTimer.stopwatch ->
      ClockTimer.displayFormat s = ClockTimer.ms ->
      Stats.durationInSeconds
        {| ClockTimer.entry_id := id;
           ClockTimer.entry_startTime := started;
           ClockTimer.duration := d;
           ClockTimer.formattedDuration :=
             ClockRun.formatTimeForDisplay clockText s t |}
      = d / 100).
Proof.
  split.
  - intros now started s sessions Hm Hs Ht.
    unfold ClockTimer.handleLog. rewrite Hm, Hs. simpl snd.
    destruct (Z.ltb_spec 0 (ClockTimer.time s)); [| lia].
    unfold ClockTimer.addSession, Stats.totalTime. simpl fold_left.
    rewrite sum_from. f_equal.
    unfold Stats.durationInSeconds. simpl ClockTimer.formattedDuration.
    rewrite (formatTimeForLog_has_no_letter "M"%char) by auto.
    reflexivity.
  - intros clockText id started d t s Hm Hf.
    unfold Stats.durationInSeconds, ClockRun.formatTimeForDisplay.
    simpl ClockTimer.formattedDuration. simpl ClockTimer.duration.
    rewrite Hm, Hf.
    repeat first
      [ rewrite includes_append
      | rewrite includes_cons
      | rewrite two_digits_has_no_letter by auto ].
    reflexivity.
Qed.

Lemma stats_never_convert_logged_sessions_witness :
  let s := ClockTimer.stopwatchFrame 65000
             (ClockTimer.handleStartStop 0
                (ClockTimer.handleFormatToggle ClockTimer.initialState)) in
  ClockTimer.displayFormat s = ClockTimer.ms
  /\ ClockTimer.time s = 6500
  /\ Stats.totalTime (snd (ClockTimer.handleLog 65000 s [])) = 6500 + 0
  /\ Stats.durationInSeconds
       {| ClockTimer.entry_id := "65000";
          ClockTimer.entry_startTime := 0;
          ClockTimer.duration := 6500;
          ClockTimer.formattedDuration :=
            ClockRun.formatTimeForDisplay EmptyString s 6500 |}
     = 6500 / 100.
Proof.
  intros s.
  split; [reflexivity | split; [reflexivity | split]].
  - exact (proj1 stats_never_convert_logged_sessions 65000 0 s []
             eq_refl eq_refl eq_refl).
  - exact (proj2 stats_never_convert_logged_sessions EmptyString
             "65000"%string 0 6500 6500 s
             eq_refl eq_refl).
Defined.

(** * Further properties of the clock revision *)

Ltac break_state s :=
  destruct s as [m f r p t ts fl st pa]; simpl in *.

Lemma apply_keeps_flags (u : ClockRun.Update) (s : ClockTimer.TimerState) :
  ClockRun.run_flags_consistent s ->
  ClockRun.run_flags_consistent (ClockRun.apply u s).
Proof.
  unfold ClockRun.run_flags_consistent. intros [Hiff Hex].
  destruct u; simpl;
    unfold ClockTimer.handleStartStop, ClockTimer.handleModeSwitch,
      ClockTimer.handleFormatToggle, ClockTimer.handleReset,
      ClockTimer.incrementField, ClockTimer.handleLog,
      ClockTimer.countdownFrame, ClockTimer.stopwatchFrame,
      ClockTimer.expire, ClockTimer.flashTimeout, ClockRun.restoreTimerSet;
    break_state s;
    repeat match goal with
           | |- context [if ?b then _ else _] => destruct b
           | |- context [match ?x with _ => _ end] => destruct x
           end;
    simpl in *; intuition (try congruence).
Qed.

Lemma apply_keeps_target (u : ClockRun.Update) (s : ClockTimer.TimerState) :
  ClockRun.target_in_range s ->
  ClockRun.target_in_range (ClockRun.apply u s).
Proof.
  unfold ClockRun.target_in_range, TIMER_CONSTANTS.TIMER_MAX. intros H.
  destruct u; simpl;
    unfold ClockTimer.handleStartStop, ClockTimer.handleModeSwitch,
      ClockTimer.handleFormatToggle, ClockTimer.handleReset,
      ClockTimer.incrementField, ClockTimer.handleLog,
      ClockTimer.countdownFrame, ClockTimer.stopwatchFrame,
      ClockTimer.expire, ClockTimer.flashTimeout, ClockRun.restoreTimerSet,
      TIMER_CONSTANTS.TIMER_MAX;
    break_state s;
    repeat match goal with
           | |- context [if ?a <=? ?b then _ else _] =>
               destruct (Z.leb_spec a b)
           | |- context [if ?b then _ else _] => destruct b
           | |- context [match ?x with _ => _ end] => destruct x
           end;
    simpl in *; lia.
Qed.

(** X14.  Whatever sequence of state updates the clock revision goes
    through (buttons, frames, log, flash timeout, restore effect), the
    timer runs exactly when it has a start time, a running timer is never
    paused, and the target stays between 0 and 99:59:59. *)
Theorem clock_run_keeps_flags_and_target (updates : list ClockRun.Update) :
  ClockRun.run_flags_consistent (ClockRun.run updates)
  /\ ClockRun.target_in_range (ClockRun.run updates).
Proof.
  unfold ClockRun.run.
  assert (H : forall s,
            ClockRun.run_flags_consistent s /\ ClockRun.target_in_range s ->
            ClockRun.run_flags_consistent
              (fold_left (fun state u => ClockRun.apply u state) updates s)
            /\ ClockRun.target_in_range
                 (fold_left (fun state u => ClockRun.apply u state)
                    updates s)).
  { induction updates as [| u updates IH]; intros s Hs; simpl;
      [exact Hs |].
    apply IH. destruct Hs as [Hf Ht].
    split; [now apply apply_keeps_flags | now apply apply_keeps_target]. }
  apply H. split.
  - split; [split; [discriminate | intros Hn; now elim Hn] | discriminate].
  - unfold ClockRun.target_in_range. vm_compute. split; discriminate.
Qed.

Lemma floor_div_shift (a k unit : Z) :
  0 < unit -> (a + k * unit) / unit = a / unit + k.
Proof. intros Hu. apply Z.div_add. lia. Qed.

(** X15.  Pause and resume of the clock revision's stopwatch lose no
    counted unit: pausing banks what the last frame would show, frames
    leave a paused stopwatch alone, the first frame after the resume shows
    the value from the instant of the pause, and later frames add the
    whole units since the resume. *)
Theorem clock_stopwatch_pause_resume (now1 now2 : Z)
    (s : ClockTimer.TimerState) (started : Z) :
  ClockTimer.mode s = ClockTimer.stopwatch ->
  ClockTimer.running s = true -> ClockTimer.paused s = false ->
  ClockTimer.startTime s = Some started ->
  let unit := match ClockTimer.displayFormat s with
              | ClockTimer.hms => 1000
              | ClockTimer.ms => 10
              end in
  let held := ClockTimer.handleStartStop now1 s in
  let resumed := ClockTimer.handleStartStop now2 held in
  ClockTimer.paused held = true /\ ClockTimer.running held = false
  /\ ClockTimer.pausedAccum held
     = ClockTimer.time (ClockTimer.stopwatchFrame now1 s)
  /\ ClockTimer.stopwatchFrame now2 held = held
  /\ ClockTimer.running resumed = true
  /\ ClockTimer.time (ClockTimer.stopwatchFrame now2 resumed)
     = ClockTimer.time (ClockTimer.stopwatchFrame now1 s)
  /\ (forall later : Z,
        ClockTimer.time (ClockTimer.stopwatchFrame later resumed)
        = ClockTimer.time (ClockTimer.stopwatchFrame now1 s)
          + (later - now2) / unit).
Proof.
  intros Hm Hr Hp Hs unit held resumed.
  unfold resumed, held, unit, ClockTimer.handleStartStop,
    ClockTimer.stopwatchFrame, ClockTimer.elapsedSince, Js.floor_div.
  rewrite Hm, Hr, Hp, Hs. simpl. rewrite ?Hm, ?Hr, ?Hp, ?Hs. simpl.
  rewrite ?Z.sub_diag.
  destruct (ClockTimer.displayFormat s); simpl;
    repeat split; try lia; rewrite Z.div_0_l by discriminate; lia.
Qed.

Lemma clock_stopwatch_pause_resume_witness :
  let s := ClockTimer.handleStartStop 0 ClockTimer.initialState in
  ClockTimer.mode s = ClockTimer.stopwatch
  /\ ClockTimer.time
       (ClockTimer.stopwatchFrame 90000
          (ClockTimer.handleStartStop 90000
             (ClockTimer.handleStartStop 5500 s)))
     = ClockTimer.time (ClockTimer.stopwatchFrame 5500 s).
Proof.
  intros s. split; [reflexivity |].
  destruct (clock_stopwatch_pause_resume 5500 90000 s 0
              eq_refl eq_refl eq_refl eq_refl)
    as (_ & _ & _ & _ & _ & H & _).
  exact H.
Defined.

(** X16.  Pause and resume of the clock revision's countdown keep the
    remaining time: the paused timer stores the seconds that remained at
    the instant of the pause, and the first frame after the resume finds
    the same number remaining. *)
Theorem clock_timer_pause_resume (now1 now2 : Z)
    (s : ClockTimer.TimerState) (started : Z) :
  ClockTimer.mode s = ClockTimer.timer ->
  ClockTimer.running s = true -> ClockTimer.paused s = false ->
  ClockTimer.startTime s = Some started ->
  ClockTimer.timerSet s <> 0 ->
  let held := ClockTimer.handleStartStop now1 s in
  let resumed := ClockTimer.handleStartStop now2 held in
  ClockTimer.paused held = true /\ ClockTimer.running held = false
  /\ ClockTimer.time held = ClockTimer.remaining now1 s
  /\ ClockTimer.countdownFrame now2 held = held
  /\ ClockTimer.running resumed = true
  /\ ClockTimer.remaining now2 resumed = ClockTimer.remaining now1 s
  /\ ClockTimer.time (ClockTimer.countdownFrame now2 resumed)
     = ClockTimer.remaining now1 s.
Proof.
  intros Hm Hr Hp Hs Hts held resumed.
  assert (Hz : (ClockTimer.timerSet s =? 0) = false)
    by now apply Z.eqb_neq.
  assert (Hheld : held =
    {| ClockTimer.mode := ClockTimer.timer;
       ClockTimer.displayFormat := ClockTimer.displayFormat s;
       ClockTimer.running := false; ClockTimer.paused := true;
       ClockTimer.time := ClockTimer.remaining now1 s;
       ClockTimer.timerSet := ClockTimer.timerSet s;
       ClockTimer.flash := ClockTimer.flash s;
       ClockTimer.startTime := None;
       ClockTimer.pausedAccum :=
         ClockTimer.pausedAccum s
         + ClockTimer.elapsedSince now1 (ClockTimer.startTime s) 1000 |}).
  { unfold held, ClockTimer.handleStartStop, ClockTimer.remaining.
    now rewrite Hm, Hz, Hp, Hr. }
  assert (Hres : resumed =
    {| ClockTimer.mode := ClockTimer.timer;
       ClockTimer.displayFormat := ClockTimer.displayFormat s;
       ClockTimer.running := true; ClockTimer.paused := false;
       ClockTimer.time := ClockTimer.remaining now1 s;
       ClockTimer.timerSet := ClockTimer.timerSet s;
       ClockTimer.flash := ClockTimer.flash s;
       ClockTimer.startTime := Some now2;
       ClockTimer.pausedAccum :=
         ClockTimer.pausedAccum s
         + ClockTimer.elapsedSince now1 (ClockTimer.startTime s) 1000 |}).
  { unfold resumed. rewrite Hheld. unfold ClockTimer.handleStartStop.
    simpl. now rewrite Hz. }
  assert (Hrem : ClockTimer.remaining now2 resumed
                 = ClockTimer.remaining now1 s).
  { rewrite Hres. unfold ClockTimer.remaining, ClockTimer.elapsedSince,
      Js.floor_div. simpl. rewrite Z.sub_diag. simpl.
    rewrite Z.add_0_r. reflexivity. }
  clearbody held resumed.
  split; [rewrite Hheld; reflexivity |].
  split; [rewrite Hheld; reflexivity |].
  split; [rewrite Hheld; reflexivity |].
  split; [rewrite Hheld; reflexivity |].
  split; [rewrite Hres; reflexivity |].
  split; [exact Hrem |].
  unfold ClockTimer.countdownFrame. rewrite Hrem.
  subst resumed. simpl.
  destruct (ClockTimer.remaining now1 s =? 0) eqn:H0; simpl.
  - apply Z.eqb_eq in H0. now rewrite H0.
  - reflexivity.
Qed.

Lemma clock_timer_pause_resume_witness :
  ClockTimer.timerSet clock_countdown <> 0
  /\ ClockTimer.time (ClockTimer.handleStartStop 30500 clock_countdown) = 90
  /\ ClockTimer.time
       (ClockTimer.countdownFrame 77000
          (ClockTimer.handleStartStop 77000
             (ClockTimer.handleStartStop 30500 clock_countdown)))
     = ClockTimer.remaining 30500 clock_countdown.
Proof.
  assert (Hts : ClockTimer.timerSet clock_countdown <> 0)
    by (vm_compute; discriminate).
  destruct (clock_timer_pause_resume 30500 77000 clock_countdown 0
              eq_refl eq_refl eq_refl eq_refl Hts)
    as (_ & _ & Hheld & _ & _ & _ & Hframe).
  split; [exact Hts | split; [| exact Hframe]].
  rewrite Hheld. reflexivity.
Defined.

(** X17.  The countdown of the clock revision never expires early and
    never late: a frame raises the flash flag exactly when the wall clock
    is at least [1000 * (timerSet - pausedAccum)] milliseconds past the
    start time.  Before that the timer keeps running and stores the
    seconds still remaining, a positive number; once expired, the restore
    effect leaves the stored 0 alone while the flag is up. *)
Theorem clock_countdown_expires_on_time (now started : Z)
    (s : ClockTimer.TimerState) :
  ClockTimer.mode s = ClockTimer.timer ->
  ClockTimer.running s = true ->
  ClockTimer.startTime s = Some started ->
  ClockTimer.flash s = false ->
  let due := 1000 * (ClockTimer.timerSet s - ClockTimer.pausedAccum s) in
  let e := ClockTimer.countdownFrame now s in
  (ClockTimer.flash e = true <-> due <= now - started)
  /\ (now - started < due ->
      ClockTimer.running e = true
      /\ ClockTimer.time e
         = ClockTimer.timerSet s - ClockTimer.pausedAccum s
           - (now - started) / 1000
      /\ 0 < ClockTimer.time e)
  /\ (due <= now - started ->
      ClockTimer.running e = false /\ ClockTimer.time e = 0
      /\ ClockRun.restoreTimerSet e = e).
Proof.
  intros Hm Hr Hs Hfl due e.
  pose proof (Z.div_mod (now - started) 1000 ltac:(discriminate)) as Hd.
  pose proof (Z.mod_pos_bound (now - started) 1000 eq_refl) as Hb.
  assert (Hdue : due = 1000 * (ClockTimer.timerSet s
                               - ClockTimer.pausedAccum s))
    by reflexivity.
  clearbody due.
  unfold e, ClockTimer.countdownFrame, ClockTimer.remaining,
    ClockTimer.elapsedSince, Js.floor_div, ClockTimer.expire,
    ClockRun.restoreTimerSet.
  rewrite Hm, Hr, Hs.
  destruct (Z.eqb_spec
              (Z.max 0 (ClockTimer.timerSet s
                        - (ClockTimer.pausedAccum s
                           + (now - started) / 1000))) 0) as [H0 | H0];
    simpl; rewrite ?Hfl, ?Hr, ?Hm.
  - split; [split; [intros _; lia | reflexivity] |].
    split; [intros Hlt; lia |]. intros _. repeat split.
  - split; [split; [discriminate | intros Hle; lia] |].
    split; [intros _; repeat split; lia | intros Hle; lia].
Qed.

Lemma clock_countdown_expires_on_time_witness :
  ClockTimer.flash (ClockTimer.countdownFrame 119999 clock_countdown) = false
  /\ ClockTimer.time (ClockTimer.countdownFrame 119999 clock_countdown) = 1
  /\ ClockTimer.flash (ClockTimer.countdownFrame 120000 clock_countdown)
     = true.
Proof.
  destruct (clock_countdown_expires_on_time 119999 0 clock_countdown
              eq_refl eq_refl eq_refl eq_refl) as (_ & Hbefore & _).
  destruct (clock_countdown_expires_on_time 120000 0 clock_countdown
              eq_refl eq_refl eq_refl eq_refl) as (Hflash & _ & _).
  assert (H1 : 119999 - 0 < 1000 * (ClockTimer.timerSet clock_countdown
                                    - ClockTimer.pausedAccum clock_countdown))
    by (vm_compute; reflexivity).
  assert (H2 : 1000 * (ClockTimer.timerSet clock_countdown
                       - ClockTimer.pausedAccum clock_countdown)
               <= 120000 - 0)
    by (vm_compute; discriminate).
  split; [reflexivity | split].
  - rewrite (proj1 (proj2 (Hbefore H1))). reflexivity.
  - exact (proj2 Hflash H2).
Defined.

(** X18.  The stopwatch of the clock revision follows the wall clock: a
    frame stores [pausedAccum] plus the whole units since the start time,
    so a later frame never stores less than an earlier one, and no maximum
    stops the count: every frame taken once the units needed to pass
    [getMaxTime] have gone by since the start stores more than
    [getMaxTime] (for a fresh [hms] stopwatch, a hundred hours). *)
Theorem clock_stopwatch_follows_the_clock (s : ClockTimer.TimerState)
    (started : Z) :
  ClockTimer.mode s = ClockTimer.stopwatch ->
  ClockTimer.running s = true ->
  ClockTimer.startTime s = Some started ->
  (forall now1 now2 : Z, now1 <= now2 ->
     ClockTimer.time (ClockTimer.stopwatchFrame now1 s)
     <= ClockTimer.time (ClockTimer.stopwatchFrame now2 s))
  /\ (forall now : Z,
        (ClockTimer.getMaxTime s - ClockTimer.pausedAccum s + 1)
        * match ClockTimer.displayFormat s with
          | ClockTimer.hms => 1000
          | ClockTimer.ms => 10
          end
        <= now - started ->
        ClockTimer.getMaxTime s
        < ClockTimer.time (ClockTimer.stopwatchFrame now s)).
Proof.
  intros Hm Hr Hs.
  assert (Hval : forall now,
            ClockTimer.time (ClockTimer.stopwatchFrame now s)
            = ClockTimer.pausedAccum s
              + (now - started)
                / match ClockTimer.displayFormat s with
                  | ClockTimer.hms => 1000
                  | ClockTimer.ms => 10
                  end).
  { intros now. unfold ClockTimer.stopwatchFrame, ClockTimer.elapsedSince,
      Js.floor_div. now rewrite Hm, Hr, Hs. }
  split.
  - intros now1 now2 Hle. rewrite !Hval.
    apply Z.add_le_mono_l. apply Z.div_le_mono; [| lia].
    destruct (ClockTimer.displayFormat s); reflexivity.
  - intros now Hnow. rewrite Hval.
    set (unit := match ClockTimer.displayFormat s with
                 | ClockTimer.hms => 1000
                 | ClockTimer.ms => 10
                 end) in *.
    assert (Hunit : 0 < unit)
      by (unfold unit; destruct (ClockTimer.displayFormat s); reflexivity).
    assert (Hdiv : ClockTimer.getMaxTime s - ClockTimer.pausedAccum s + 1
                   <= (now - started) / unit)
      by (apply Z.div_le_lower_bound; lia).
    lia.
Qed.

Lemma clock_stopwatch_follows_the_clock_witness :
  let s := ClockTimer.handleStartStop 0 ClockTimer.initialState in
  ClockTimer.time (ClockTimer.stopwatchFrame 5000 s)
  <= ClockTimer.time (ClockTimer.stopwatchFrame 7000 s)
  /\ ClockTimer.getMaxTime s = hms_value 99 59 59
  /\ ClockTimer.getMaxTime s
     < ClockTimer.time (ClockTimer.stopwatchFrame 360000000 s).
Proof.
  intros s.
  destruct (clock_stopwatch_follows_the_clock s 0 eq_refl eq_refl eq_refl)
    as [Hmono Hpast].
  assert (Hle : 5000 <= 7000) by lia.
  assert (Hnow : (ClockTimer.getMaxTime s - ClockTimer.pausedAccum s + 1)
                 * match ClockTimer.displayFormat s with
                   | ClockTimer.hms => 1000
                   | ClockTimer.ms => 10
                   end
                 <= 360000000 - 0)
    by (vm_compute; discriminate).
  split; [exact (Hmono 5000 7000 Hle) | split; [reflexivity |]].
  exact (Hpast 360000000 Hnow).
Defined.

(** X19.  In the clock revision the clock mode is entered only by a reset
    or by the flash timeout, and it is left only by the start button,
    which starts a stopwatch at 0, or by the mode button, which leads to
    the timer; every other update keeps a clock a clock. *)
Theorem clock_mode_entries_and_exits (u : ClockRun.Update)
    (s : ClockTimer.TimerState) :
  (ClockTimer.mode (ClockRun.apply u s) = ClockTimer.clock ->
   ClockTimer.mode s = ClockTimer.clock
   \/ u = ClockRun.ResetUpdate \/ u = ClockRun.FlashTimeoutUpdate)
  /\ (ClockTimer.mode s = ClockTimer.clock ->
      ClockTimer.mode (ClockRun.apply u s) <> ClockTimer.clock ->
      (exists now : Z,
          u = ClockRun.StartStopUpdate now
          /\ ClockTimer.mode (ClockRun.apply u s) = ClockTimer.stopwatch
          /\ ClockTimer.running (ClockRun.apply u s) = true
          /\ ClockTimer.time (ClockRun.apply u s) = 0
          /\ ClockTimer.startTime (ClockRun.apply u s) = Some now)
      \/ (u = ClockRun.ModeUpdate
          /\ ClockTimer.mode (ClockRun.apply u s) = ClockTimer.timer
          /\ ClockTimer.running (ClockRun.apply u s) = false)).
Proof.
  split.
  - destruct u; simpl; auto;
      unfold ClockTimer.handleStartStop, ClockTimer.handleModeSwitch,
        ClockTimer.handleFormatToggle, ClockTimer.incrementField,
        ClockTimer.handleLog, ClockTimer.countdownFrame,
        ClockTimer.stopwatchFrame, ClockTimer.expire,
        ClockRun.restoreTimerSet;
      break_state s;
      repeat match goal with
             | |- context [if ?b then _ else _] => destruct b
             | |- context [match ?x with _ => _ end] => destruct x
             end;
      simpl; intros H; try discriminate H; auto.
  - intros Hm Hleft.
    destruct u; simpl in *;
      try (exfalso; apply Hleft;
           unfold ClockTimer.handleFormatToggle, ClockTimer.incrementField,
             ClockTimer.handleLog, ClockTimer.countdownFrame,
             ClockTimer.stopwatchFrame, ClockRun.restoreTimerSet;
           rewrite Hm;
           repeat match goal with
                  | |- context [if ?b then _ else _] => destruct b
                  | |- context [match ?x with _ => _ end] => destruct x
                  end;
           simpl; (reflexivity || exact Hm)).
    + left. exists now. unfold ClockTimer.handleStartStop. rewrite Hm.
      simpl. repeat split.
    + right. unfold ClockTimer.handleModeSwitch. rewrite Hm. simpl.
      repeat split.
    + exfalso. now apply Hleft.
    + exfalso. now apply Hleft.
Qed.

Lemma clock_mode_entries_and_exits_witness :
  ClockTimer.mode
    (ClockRun.apply ClockRun.FlashTimeoutUpdate
       (ClockTimer.countdownFrame 120000 clock_countdown))
  = ClockTimer.clock
  /\ exists now : Z,
       ClockRun.StartStopUpdate 7 = ClockRun.StartStopUpdate now
       /\ ClockTimer.mode
            (ClockRun.apply (ClockRun.StartStopUpdate 7)
               ClockTimer.initialState)
          = ClockTimer.stopwatch.
Proof.
  split; [reflexivity |].
  destruct (proj2 (clock_mode_entries_and_exits (ClockRun.StartStopUpdate 7)
                     ClockTimer.initialState) eq_refl)
    as [(now & Hu & Hm & _) | (Hu & _)].
  - discriminate.
  - exists now. split; [exact Hu | exact Hm].
  - discriminate Hu.
Defined.
